(** * pyfatsecret: the response interpreter, the endpoint methods and the
      session object of [fatsecret.py], embedded in Rocq.

    Python objects are modelled by the type [value]; a Python call either
    returns or raises, which is the type [outcome].  Dictionaries decoded
    from JSON keep their key order, so they are association lists; request
    parameters, where only the bindings matter, are finite maps. *)

From Stdlib Require Import ZArith String Ascii List Bool Lia.
From stdpp Require Import base option gmap strings list.
Import ListNotations.

Local Open Scope string_scope.
Local Open Scope Z_scope.
Local Set Warnings "-register-all".

(** ** Python values *)

(** A naive [datetime.datetime]: the seven fields of its constructor. *)
Record datetime := mk_datetime {
  year : Z; month : Z; day : Z;
  hour : Z; minute : Z; second : Z; microsecond : Z
}.

(** The Python objects the library handles: what [response.json()] decodes
    to (numbers with a fraction or an exponent decode to [float] and are
    left out), tuples built by the library, and datetimes passed by the
    caller.  A [VDict] lists its bindings in iteration order; a Python
    dictionary binds each key once. *)
Inductive value :=
| VNone
| VBool (b : bool)
| VInt (n : Z)
| VStr (s : string)
| VList (xs : list value)
| VTuple (xs : list value)
| VDict (kvs : list (string * value))
| VDatetime (dt : datetime).

(** ** Exceptions *)

(** The four error classes of the module all derive from
    [BaseFatsecretError(code, message)], which hands the text
    ["Error {0}: {1}".format(code, message)] to [Exception]; the model keeps
    the two arguments of the constructor.  The other constructors are the
    built-in exceptions the modelled operations can raise; [TransportError]
    stands for whatever the HTTP session or the OAuth service raises. *)
Inductive exn :=
| GeneralError (code message : value)
| AuthenticationError (code message : value)
| ParameterError (code message : value)
| ApplicationError (code message : value)
| KeyError (key : value)
| IndexError
| TypeError
| ValueError
| TransportError (what : string).

Definition error_code (e : exn) : option value :=
  match e with
  | GeneralError c _ | AuthenticationError c _
  | ParameterError c _ | ApplicationError c _ => Some c
  | _ => None
  end.

Definition error_message (e : exn) : option value :=
  match e with
  | GeneralError _ m | AuthenticationError _ m
  | ParameterError _ m | ApplicationError _ m => Some m
  | _ => None
  end.

(** A call either returns a result or raises. *)
Inductive outcome (A : Type) :=
| Return (a : A)
| Raise (e : exn).
Arguments Return {A} a.
Arguments Raise {A} e.

#[export] Instance outcome_ret : MRet outcome := fun A a => Return a.
#[export] Instance outcome_bind : MBind outcome := fun A B f m =>
  match m with
  | Return a => f a
  | Raise e => Raise e
  end.

(** ** Primitive operations of Python on [value] *)

(** [bool(v)]: the test of [if v:]. *)
Definition truthy (v : value) : bool :=
  match v with
  | VNone => false
  | VBool b => b
  | VInt n => negb (n =? 0)
  | VStr s => negb (String.eqb s "")
  | VList xs | VTuple xs => match xs with [] => false | _ => true end
  | VDict kvs => match kvs with [] => false | _ => true end
  | VDatetime _ => true
  end.

(** A number as Python compares it: [bool] is a subclass of [int]. *)
Definition as_int (v : value) : option Z :=
  match v with
  | VInt n => Some n
  | VBool b => Some (Z.b2z b)
  | _ => None
  end.

(** [v == n] for an integer literal [n]. *)
Definition eq_int (v : value) (n : Z) : bool :=
  match as_int v with
  | Some m => m =? n
  | None => false
  end.

(** [v == s] for a string literal [s]. *)
Definition eq_str (v : value) (s : string) : bool :=
  match v with
  | VStr t => String.eqb t s
  | _ => false
  end.

(** [v in [n1, n2, ...]] for integer literals. *)
Definition in_ints (v : value) (ns : list Z) : bool :=
  existsb (eq_int v) ns.

(** [v in (s1, s2, ...)] for string literals. *)
Definition in_strs (v : value) (ss : list string) : bool :=
  existsb (eq_str v) ss.

(** [n <= v] and [v <= n] for an integer literal [n]; Python 3 raises
    [TypeError] when [v] is not a number. *)
Definition int_le_value (n : Z) (v : value) : outcome bool :=
  match as_int v with
  | Some m => Return (n <=? m)
  | None => Raise TypeError
  end.

Definition value_le_int (v : value) (n : Z) : outcome bool :=
  match as_int v with
  | Some m => Return (m <=? n)
  | None => Raise TypeError
  end.

(** The chained comparison [lo <= v <= hi]: the second test runs only when
    the first holds. *)
Definition between (lo : Z) (v : value) (hi : Z) : outcome bool :=
  b ← int_le_value lo v;
  if b : bool then value_le_int v hi else Return false.

(** The binding of a key in a dictionary. *)
Fixpoint dict_get (kvs : list (string * value)) (k : string) : option value :=
  match kvs with
  | [] => None
  | (k', v) :: rest => if String.eqb k' k then Some v else dict_get rest k
  end.

(** Objects that can be a dictionary key. *)
Fixpoint hashable (v : value) : bool :=
  match v with
  | VList _ | VDict _ => false
  | VTuple xs => forallb hashable xs
  | _ => true
  end.

(** [xs[i]] on a sequence: negative indices count from the end. *)
Definition seq_index {A} (xs : list A) (i : Z) : outcome A :=
  let n := Z.of_nat (length xs) in
  let j := if i <? 0 then i + n else i in
  if (0 <=? j) && (j <? n) then
    match nth_error xs (Z.to_nat j) with
    | Some x => Return x
    | None => Raise IndexError
    end
  else Raise IndexError.

Definition chars (s : string) : list value :=
  map (fun c => VStr (String c EmptyString)) (list_ascii_of_string s).

(** [v[key]]. *)
Definition getitem (v key : value) : outcome value :=
  match v with
  | VDict kvs =>
      match key with
      | VStr k =>
          match dict_get kvs k with
          | Some x => Return x
          | None => Raise (KeyError key)
          end
      | _ => if hashable key then Raise (KeyError key) else Raise TypeError
      end
  | VList xs | VTuple xs =>
      match as_int key with
      | Some i => seq_index xs i
      | None => Raise TypeError
      end
  | VStr s =>
      match as_int key with
      | Some i => seq_index (chars s) i
      | None => Raise TypeError
      end
  | _ => Raise TypeError
  end.

(** [s in v] for a string literal [s]: key membership on a dictionary,
    element membership on a sequence, substring test on a string. *)
Definition contains (s : string) (v : value) : outcome bool :=
  match v with
  | VDict kvs => Return (bool_decide (is_Some (dict_get kvs s)))
  | VList xs | VTuple xs => Return (existsb (fun x => eq_str x s) xs)
  | VStr t => Return (bool_decide (is_Some (String.index 0 s t)))
  | _ => Raise TypeError
  end.

(** The items [for key in v] runs over. *)
Definition iter (v : value) : outcome (list value) :=
  match v with
  | VDict kvs => Return (map (fun kv => VStr (fst kv)) kvs)
  | VList xs | VTuple xs => Return xs
  | VStr s => Return (chars s)
  | _ => Raise TypeError
  end.

(** ** The response interpreter *)

(** An HTTP response: [json()] decodes the body, or raises. *)
Record response := { json : outcome value }.

Definition unauthenticated_message : string :=
  "This api call requires an authenticated session".

(** The branch of [valid_response] for the key ['error'].  [None] means that
    no [raise] was reached and the loop goes on with the next key. *)
Definition error_branch (item : outcome value) : outcome (option value) :=
  err ← item;
  code ← getitem err (VStr "code");
  err' ← item;
  message ← getitem err' (VStr "message");
  if eq_int code 2 then
    Raise (AuthenticationError (VInt 2) (VStr unauthenticated_message))
  else if in_ints code [1; 10; 11; 12; 20; 21] then
    Raise (GeneralError code message)
  else
    b1 ← between 3 code 9;
    if b1 : bool then Raise (AuthenticationError code message)
    else
      b2 ← between 101 code 108;
      if b2 : bool then Raise (ParameterError code message)
      else
        b3 ← between 201 code 207;
        if b3 : bool then Raise (ApplicationError code message)
        else Return None.

(** [return response.json()[key][sub]]. *)
Definition unwrap (item : outcome value) (sub : string) : outcome (option value) :=
  obj ← item;
  v ← getitem obj (VStr sub);
  Return (Some v).

(** One turn of the loop of [valid_response] on [key]: the [if]/[elif]
    chain.  [Some v] is [return v]; [None] is the end of the body. *)
Definition dispatch (js : value) (key : value) : outcome (option value) :=
  let item := getitem js key in
  if eq_str key "error" then error_branch item
  else if eq_str key "success" then Return (Some (VBool true))
  else if eq_str key "foods" then unwrap item "food"
  else if eq_str key "recipes" then unwrap item "recipe"
  else if eq_str key "saved_meals" then unwrap item "saved_meal"
  else if eq_str key "saved_meal_items" then unwrap item "saved_meal_item"
  else if eq_str key "exercise_types" then unwrap item "exercise"
  else if eq_str key "food_entries" then unwrap item "food_entry"
  else if eq_str key "month" then unwrap item "day"
  else if eq_str key "profile" then
    p ← item;
    b ← contains "auth_token" p;
    if b : bool then
      p1 ← item;
      t ← getitem p1 (VStr "auth_token");
      p2 ← item;
      s ← getitem p2 (VStr "auth_secret");
      Return (Some (VTuple [t; s]))
    else
      p3 ← item;
      Return (Some p3)
  else if in_strs key ["food"; "recipe"; "recipe_types"; "saved_meal_id";
                       "saved_meal_item_id"; "food_entry_id"] then
    v ← item;
    Return (Some v)
  else Return None.

(** The [for] loop: the first key whose turn returns or raises ends it; a
    loop that runs out of keys falls off the end of the function, which
    returns [None]. *)
Fixpoint scan_keys (js : value) (keys : list value) : outcome value :=
  match keys with
  | [] => Return VNone
  | key :: rest =>
      r ← dispatch js key;
      match r with
      | Some v => Return v
      | None => scan_keys js rest
      end
  end.

Definition valid_response (r : response) : outcome value :=
  js ← json r;
  if truthy js then
    keys ← iter js;
    scan_keys js keys
  else Return VNone.

(** ** Dates: [datetime] subtraction and [unix_time] *)

(** The proleptic Gregorian day count of [datetime.toordinal()]. *)
Definition is_leap (y : Z) : bool :=
  (y mod 4 =? 0) && (negb (y mod 100 =? 0) || (y mod 400 =? 0)).

Definition days_before_year (y : Z) : Z :=
  let p := y - 1 in p * 365 + p / 4 - p / 100 + p / 400.

Definition DAYS_BEFORE_MONTH : list Z :=
  [-1; 0; 31; 59; 90; 120; 151; 181; 212; 243; 273; 304; 334].

Definition days_before_month (y m : Z) : Z :=
  nth (Z.to_nat m) DAYS_BEFORE_MONTH 0
  + (if (2 <? m) && is_leap y then 1 else 0).

Definition ymd2ord (y m d : Z) : Z :=
  days_before_year y + days_before_month y m + d.

Definition toordinal (dt : datetime) : Z :=
  ymd2ord (year dt) (month dt) (day dt).

(** A [timedelta], and its constructor, which normalises the seconds into
    [0, 86400) and the microseconds into [0, 10^6) by floor division. *)
Record timedelta := { days : Z; seconds : Z; microseconds : Z }.

Definition mk_timedelta (d s us : Z) : timedelta :=
  let s1 := s + us / 1000000 in
  {| days := d + s1 / 86400;
     seconds := s1 mod 86400;
     microseconds := us mod 1000000 |}.

Definition seconds_of_day (dt : datetime) : Z :=
  second dt + minute dt * 60 + hour dt * 3600.

(** [a - b] on two naive datetimes. *)
Definition datetime_sub (a b : datetime) : timedelta :=
  mk_timedelta (toordinal a - toordinal b)
               (seconds_of_day a - seconds_of_day b)
               (microsecond a - microsecond b).

(** [datetime.datetime.utcfromtimestamp(0)]. *)
Definition epoch : datetime := mk_datetime 1970 1 1 0 0 0 0.

(** [unix_time(dt)]: [(dt - epoch).days].  Subtracting a datetime from
    anything but a datetime raises [TypeError]. *)
Definition unix_time (dt : value) : outcome Z :=
  match dt with
  | VDatetime d => Return (days (datetime_sub d epoch))
  | _ => Raise TypeError
  end.

(** The fields the [datetime] constructor accepts for the time of day. *)
Definition valid_time (dt : datetime) : Prop :=
  0 <= hour dt < 24 /\ 0 <= minute dt < 60 /\ 0 <= second dt < 60 /\
  0 <= microsecond dt < 1000000.

(** ** Stateful calls *)

(** A computation that reads and updates a state of type [S] and may raise;
    the state reached when it raises is kept. *)
Definition stateful (S A : Type) : Type := S -> outcome A * S.

#[export] Instance stateful_ret {S} : MRet (stateful S) :=
  fun A a s => (Return a, s).
#[export] Instance stateful_bind {S} : MBind (stateful S) :=
  fun A B f m s =>
    match m s with
    | (Return a, s') => f a s'
    | (Raise e, s') => (Raise e, s')
    end.

Definition lift {S A} (o : outcome A) : stateful S A := fun s => (o, s).
Definition modify {S} (f : S -> S) : stateful S unit := fun s => (Return tt, f s).
Definition gets {S A} (f : S -> A) : stateful S A := fun s => (Return (f s), s).

(** ** The session object *)

(** The signing session of rauth: bound to no token, or to an access token
    and its secret. *)
Inductive OAuth1Session :=
| PublicSession
| TokenSession (token token_secret : value).

(** [a, b = v]. *)
Definition unpack2 (v : value) : outcome (value * value) :=
  items ← iter v;
  match items with
  | [a; b] => Return (a, b)
  | _ => Raise ValueError
  end.

(** [OAuth1Service.get_session(token)]: without a token the session is
    public, otherwise the token is unpacked into its two components. *)
Definition get_session (token : value) : outcome OAuth1Session :=
  match token with
  | VNone => Return PublicSession
  | _ => '(t, s) ← unpack2 token; Return (TokenSession t s)
  end.

(** The calls of [self.oauth] that talk to the provider: what they answer is
    not decided by this library. *)
Record OAuth1Service := {
  get_request_token : value -> outcome value;
  oauth_authorize_url : value -> outcome value;
  get_access_token : value -> value -> value -> outcome value
}.

Record Fatsecret := {
  consumer_key : value;
  consumer_secret : value;
  request_token : value;
  request_token_secret : value;
  access_token : value;
  access_token_secret : value;
  session : OAuth1Session
}.

Definition set_request_tokens (t s : value) (self : Fatsecret) : Fatsecret :=
  {| consumer_key := consumer_key self; consumer_secret := consumer_secret self;
     request_token := t; request_token_secret := s;
     access_token := access_token self;
     access_token_secret := access_token_secret self;
     session := session self |}.

Definition set_access_token (t : value) (self : Fatsecret) : Fatsecret :=
  {| consumer_key := consumer_key self; consumer_secret := consumer_secret self;
     request_token := request_token self;
     request_token_secret := request_token_secret self;
     access_token := t;
     access_token_secret := access_token_secret self;
     session := session self |}.

Definition set_access_token_secret (s : value) (self : Fatsecret) : Fatsecret :=
  {| consumer_key := consumer_key self; consumer_secret := consumer_secret self;
     request_token := request_token self;
     request_token_secret := request_token_secret self;
     access_token := access_token self;
     access_token_secret := s;
     session := session self |}.

Definition set_session (ss : OAuth1Session) (self : Fatsecret) : Fatsecret :=
  {| consumer_key := consumer_key self; consumer_secret := consumer_secret self;
     request_token := request_token self;
     request_token_secret := request_token_secret self;
     access_token := access_token self;
     access_token_secret := access_token_secret self;
     session := ss |}.

(** [Fatsecret(consumer_key, consumer_secret, session_token)].  Every field
    starts as [None]; a truthy [session_token] is adopted component by
    component.  A constructor that raises yields no object. *)
Definition __init__ (ck cs session_token : value) : outcome Fatsecret :=
  if truthy session_token then
    t ← getitem session_token (VInt 0);
    s ← getitem session_token (VInt 1);
    ss ← get_session session_token;
    Return {| consumer_key := ck; consumer_secret := cs;
              request_token := VNone; request_token_secret := VNone;
              access_token := t; access_token_secret := s;
              session := ss |}
  else
    ss ← get_session VNone;
    Return {| consumer_key := ck; consumer_secret := cs;
              request_token := VNone; request_token_secret := VNone;
              access_token := VNone; access_token_secret := VNone;
              session := ss |}.

Definition api_url : string := "http://platform.fatsecret.com/rest/server.api".

(** [get_authorize_url(callback_url)]: both request-token fields are
    assigned by one unpacking. *)
Definition get_authorize_url (oauth : OAuth1Service) (callback_url : value)
  : stateful Fatsecret value :=
  answer ← lift (get_request_token oauth callback_url);
  '(t, s) ← lift (unpack2 answer);
  _ ← modify (set_request_tokens t s);
  rt ← gets request_token;
  lift (oauth_authorize_url oauth rt).

(** [authenticate(verifier)]: three assignments in a row, each after a
    subscript or a call that may raise. *)
Definition authenticate (oauth : OAuth1Service) (verifier : value)
  : stateful Fatsecret value :=
  rt ← gets request_token;
  rts ← gets request_token_secret;
  session_token ← lift (get_access_token oauth rt rts verifier);
  t ← lift (getitem session_token (VInt 0));
  _ ← modify (set_access_token t);
  s ← lift (getitem session_token (VInt 1));
  _ ← modify (set_access_token_secret s);
  ss ← lift (get_session session_token);
  _ ← modify (set_session ss);
  mret session_token.

(** [close()]: closes the transport of the session; no field changes. *)
Definition close : stateful Fatsecret value := mret VNone.

(** ** Endpoint methods *)

(** One call of [self.session.get(url, params=params)]. *)
Record request := {
  req_session : OAuth1Session;
  req_url : string;
  req_params : gmap string value
}.

(** An endpoint method runs against the remote server, [http], and its
    state is the list of the requests sent so far, oldest first. *)
Definition session_get (http : request -> outcome response) (self : Fatsecret)
    (url : string) (params : gmap string value)
  : stateful (list request) response :=
  fun sent =>
    let rq := {| req_session := session self; req_url := url;
                 req_params := params |} in
    (http rq, (sent ++ [rq])%list).

(** [if date: params['date'] = self.unix_time(date)]. *)
Definition set_date (date : value) (params : gmap string value)
  : outcome (gmap string value) :=
  if truthy date then
    d ← unix_time date;
    Return (<["date" := VInt d]> params)
  else Return params.

Definition food_add_favorite (http : request -> outcome response)
    (self : Fatsecret) (food_id serving_id number_of_units : value)
  : stateful (list request) value :=
  let params : gmap string value :=
    <["food_id" := food_id]>
      (<["format" := VStr "json"]>
         {["method" := VStr "food.add_favorite"]}) in
  let params :=
    if truthy serving_id && truthy number_of_units then
      <["number_of_units" := number_of_units]>
        (<["serving_id" := serving_id]> params)
    else params in
  response ← session_get http self api_url params;
  lift (valid_response response).

Definition food_entries_get (http : request -> outcome response)
    (self : Fatsecret) (food_entry_id date : value)
  : stateful (list request) value :=
  let params : gmap string value :=
    <["format" := VStr "json"]> {["method" := VStr "food_entries.get"]} in
  if truthy food_entry_id then
    let params := <["food_entry_id" := food_entry_id]> params in
    response ← session_get http self api_url params;
    lift (valid_response response)
  else if truthy date then
    d ← lift (unix_time date);
    let params := <["date" := VInt d]> params in
    response ← session_get http self api_url params;
    lift (valid_response response)
  else
    mret VNone.

(** The two guards of [exercise_entry_edit] on the sentinel id [0]: each
    either extends the parameters or leaves the method ([None]). *)
Definition shift_to_guard (shift_to_id shift_to_name kcals : value)
    (params : gmap string value) : option (gmap string value) :=
  if eq_int shift_to_id 0 then
    if truthy shift_to_name then Some (<["shift_to_name" := shift_to_name]> params)
    else if truthy kcals then Some (<["kcals" := kcals]> params)
    else None
  else Some params.

Definition shift_from_guard (shift_from_id shift_from_name : value)
    (params : gmap string value) : option (gmap string value) :=
  if eq_int shift_from_id 0 then
    if truthy shift_from_name then
      Some (<["shift_from_name" := shift_from_name]> params)
    else None
  else Some params.

Definition exercise_entry_edit (http : request -> outcome response)
    (self : Fatsecret)
    (shift_to_id shift_from_id minutes date shift_to_name shift_from_name
       kcals : value)
  : stateful (list request) value :=
  let params : gmap string value :=
    <["minutes" := minutes]>
      (<["shift_from_id" := shift_from_id]>
         (<["shift_to_id" := shift_to_id]>
            (<["format" := VStr "json"]>
               {["method" := VStr "exercise_entry.edit"]}))) in
  params ← lift (set_date date params);
  match shift_to_guard shift_to_id shift_to_name kcals params with
  | None => mret VNone
  | Some params =>
      match shift_from_guard shift_from_id shift_from_name params with
      | None => mret VNone
      | Some params =>
          response ← session_get http self api_url params;
          lift (valid_response response)
      end
  end.

(** [sep.join(v)]: [v] is iterated and every item has to be a string. *)
Fixpoint strings_of (items : list value) : outcome (list string) :=
  match items with
  | [] => Return []
  | VStr s :: rest => ss ← strings_of rest; Return (s :: ss)
  | _ :: _ => Raise TypeError
  end.

Definition str_join (sep : string) (v : value) : outcome string :=
  items ← iter v;
  ss ← strings_of items;
  Return (String.concat sep ss).

Definition food_delete_favorite (http : request -> outcome response)
    (self : Fatsecret) (food_id serving_id number_of_units : value)
  : stateful (list request) value :=
  let params : gmap string value :=
    <["food_id" := food_id]>
      (<["format" := VStr "json"]>
         {["method" := VStr "food.delete_favorite"]}) in
  let params :=
    if truthy serving_id && truthy number_of_units then
      <["number_of_units" := number_of_units]>
        (<["serving_id" := serving_id]> params)
    else params in
  response ← session_get http self api_url params;
  lift (valid_response response).

Definition food_get (http : request -> outcome response)
    (self : Fatsecret) (food_id : value) : stateful (list request) value :=
  let params : gmap string value :=
    <["format" := VStr "json"]>
      (<["food_id" := food_id]> {["method" := VStr "food.get"]}) in
  response ← session_get http self api_url params;
  lift (valid_response response).

Definition MEALS : list string := ["breakfast"; "lunch"; "dinner"; "other"].

Definition foods_get_most_eaten (http : request -> outcome response)
    (self : Fatsecret) (meal : value) : stateful (list request) value :=
  let params : gmap string value :=
    <["format" := VStr "json"]> {["method" := VStr "foods.get_most_eaten"]} in
  let params :=
    if in_strs meal MEALS then <["meal" := meal]> params else params in
  response ← session_get http self api_url params;
  lift (valid_response response).

Definition foods_get_recently_eaten (http : request -> outcome response)
    (self : Fatsecret) (meal : value) : stateful (list request) value :=
  let params : gmap string value :=
    <["format" := VStr "json"]>
      {["method" := VStr "foods.get_recently_eaten"]} in
  let params :=
    if in_strs meal MEALS then <["meal" := meal]> params else params in
  response ← session_get http self api_url params;
  lift (valid_response response).

Definition foods_search (http : request -> outcome response)
    (self : Fatsecret) (search_expression page_number max_results : value)
  : stateful (list request) value :=
  let params : gmap string value :=
    <["format" := VStr "json"]>
      (<["search_expression" := search_expression]>
         {["method" := VStr "foods.search"]}) in
  let params :=
    if truthy page_number && truthy max_results then
      <["max_results" := max_results]> (<["page_number" := page_number]> params)
    else params in
  response ← session_get http self api_url params;
  lift (valid_response response).

Definition recipes_search (http : request -> outcome response)
    (self : Fatsecret)
    (search_expression recipe_type page_number max_results : value)
  : stateful (list request) value :=
  let params : gmap string value :=
    <["format" := VStr "json"]>
      (<["search_expression" := search_expression]>
         {["method" := VStr "recipes.search"]}) in
  let params :=
    if truthy recipe_type then <["recipe_type" := recipe_type]> params
    else params in
  let params :=
    if truthy page_number && truthy max_results then
      <["max_results" := max_results]> (<["page_number" := page_number]> params)
    else params in
  response ← session_get http self api_url params;
  lift (valid_response response).

Definition saved_meal_create (http : request -> outcome response)
    (self : Fatsecret) (meal_name meal_desc meals : value)
  : stateful (list request) value :=
  let params : gmap string value :=
    <["saved_meal_name" := meal_name]>
      (<["format" := VStr "json"]>
         {["method" := VStr "saved_meal.create"]}) in
  let params :=
    if truthy meal_desc then <["saved_meal_description" := meal_desc]> params
    else params in
  params ← lift (if truthy meals then
                   joined ← str_join "," meals;
                   Return (<["meals" := VStr joined]> params)
                 else Return params);
  response ← session_get http self api_url params;
  lift (valid_response response).

Definition profile_get_auth (http : request -> outcome response)
    (self : Fatsecret) (user_id : value) : stateful (list request) value :=
  let params : gmap string value :=
    <["user_id" := user_id]>
      (<["format" := VStr "json"]> {["method" := VStr "profile.get_auth"]}) in
  response ← session_get http self api_url params;
  lift (valid_response response).

(** The two dates are converted while the dictionary literal is built,
    [from_date] first. *)
Definition food_entries_copy (http : request -> outcome response)
    (self : Fatsecret) (from_date to_date meal : value)
  : stateful (list request) value :=
  f ← lift (unix_time from_date);
  t ← lift (unix_time to_date);
  let params : gmap string value :=
    <["to_date" := VInt t]>
      (<["from_date" := VInt f]>
         (<["format" := VStr "json"]>
            {["method" := VStr "food_entries.copy"]})) in
  let params := if truthy meal then <["meal" := meal]> params else params in
  response ← session_get http self api_url params;
  lift (valid_response response).

Definition food_entries_get_month (http : request -> outcome response)
    (self : Fatsecret) (date : value) : stateful (list request) value :=
  let params : gmap string value :=
    <["format" := VStr "json"]>
      {["method" := VStr "food_entries.get_month"]} in
  params ← lift (set_date date params);
  response ← session_get http self api_url params;
  lift (valid_response response).

Definition food_entry_create (http : request -> outcome response)
    (self : Fatsecret)
    (food_id food_entry_name serving_id number_of_units meal date : value)
  : stateful (list request) value :=
  let params : gmap string value :=
    <["meal" := meal]>
      (<["number_of_units" := number_of_units]>
         (<["serving_id" := serving_id]>
            (<["food_entry_name" := food_entry_name]>
               (<["food_id" := food_id]>
                  (<["format" := VStr "json"]>
                     {["method" := VStr "food_entry.create"]}))))) in
  params ← lift (set_date date params);
  response ← session_get http self api_url params;
  lift (valid_response response).

Definition food_entry_edit (http : request -> outcome response)
    (self : Fatsecret)
    (food_entry_id entry_name serving_id num_units meal : value)
  : stateful (list request) value :=
  let params : gmap string value :=
    <["format" := VStr "json"]>
      (<["food_entry_id" := food_entry_id]>
         {["method" := VStr "food_entry.edit"]}) in
  let params :=
    if truthy entry_name then <["food_entry_name" := entry_name]> params
    else params in
  let params :=
    if truthy serving_id then <["serving_id" := serving_id]> params
    else params in
  let params :=
    if truthy num_units then <["number_of_units" := num_units]> params
    else params in
  let params := if truthy meal then <["meal" := meal]> params else params in
  response ← session_get http self api_url params;
  lift (valid_response response).

(** ** Vocabulary of the properties *)

(** The envelope [{"error": {...fields...}}]. *)
Definition error_envelope (fields : list (string * value)) : response :=
  {| json := Return (VDict [("error", VDict fields)]) |}.

(** The top-level keys the interpreter has a branch for. *)
Definition recognized_keys : list string :=
  ["error"; "success"; "foods"; "recipes"; "saved_meals"; "saved_meal_items";
   "exercise_types"; "food_entries"; "month"; "profile"; "food"; "recipe";
   "recipe_types"; "saved_meal_id"; "saved_meal_item_id"; "food_entry_id"].

(** The code bands of the error table. *)
Definition general_code (c : Z) : Prop := In c [1; 10; 11; 12; 20; 21].
Definition authentication_code (c : Z) : Prop := c = 2 \/ 3 <= c <= 9.
Definition parameter_code (c : Z) : Prop := 101 <= c <= 108.
Definition application_code (c : Z) : Prop := 201 <= c <= 207.

Definition banded (c : Z) : Prop :=
  general_code c \/ authentication_code c \/ parameter_code c \/
  application_code c.

(** [e] is the error of the class that the table gives to code [c], and it
    carries [c]. *)
Definition typed_error (c : Z) (e : exn) : Prop :=
  (general_code c /\ exists m, e = GeneralError (VInt c) m) \/
  (authentication_code c /\ exists m, e = AuthenticationError (VInt c) m) \/
  (parameter_code c /\ exists m, e = ParameterError (VInt c) m) \/
  (application_code c /\ exists m, e = ApplicationError (VInt c) m).

(** A field of the session is present when it is not [None]. *)
Definition present (v : value) : bool :=
  match v with
  | VNone => false
  | _ => true
  end.

(** The invariant of the session: the two components of the access token
    are both absent or both present. *)
Definition token_invariant (self : Fatsecret) : Prop :=
  present (access_token self) = present (access_token_secret self).

(** A token pair: a 2-tuple whose components are both present. *)
Definition is_token_pair (v : value) : bool :=
  match v with
  | VTuple [t; s] => present t && present s
  | _ => false
  end.

(** What the constructor is given as [session_token]: nothing (any falsy
    object), or a token pair. *)
Definition resumable (session_token : value) : Prop :=
  truthy session_token = true -> is_token_pair session_token = true.

(** What the provider answers to the access-token exchange, when it answers,
    is a token pair. *)
Definition answers_token_pairs (oauth : OAuth1Service) : Prop :=
  forall rt rts verifier answer,
    get_access_token oauth rt rts verifier = Return answer ->
    is_token_pair answer = true.

(** The states a session object can be in: built by the constructor, then
    driven by its methods, each call against whatever the provider answers
    at that time.  A method that raises leaves the object as it was when the
    exception left it. *)
Inductive reachable : Fatsecret -> Prop :=
| reach_init ck cs session_token self :
    resumable session_token ->
    __init__ ck cs session_token = Return self ->
    reachable self
| reach_get_authorize_url oauth callback_url self :
    reachable self ->
    reachable (snd (get_authorize_url oauth callback_url self))
| reach_authenticate oauth verifier self :
    answers_token_pairs oauth ->
    reachable self ->
    reachable (snd (authenticate oauth verifier self))
| reach_close self :
    reachable self ->
    reachable (snd (close self)).

(** The method left without sending anything: it returned [None] and the
    list of requests is as before. *)
Definition skipped (run : outcome value * list request) (sent : list request)
  : Prop :=
  run = (Return VNone, sent).

(** The requests a run added to those sent before it. *)
Definition sent_exactly (run : outcome value * list request)
    (sent : list request) (rqs : list request) : Prop :=
  snd run = (sent ++ rqs)%list.

(** The keys whose branch unwraps one level, each with the sub-key it
    reads, and the keys whose branch returns the nested value as it is. *)
Definition wrapper_keys : list (string * string) :=
  [("foods", "food"); ("recipes", "recipe"); ("saved_meals", "saved_meal");
   ("saved_meal_items", "saved_meal_item"); ("exercise_types", "exercise");
   ("food_entries", "food_entry"); ("month", "day")].

Definition verbatim_keys : list string :=
  ["food"; "recipe"; "recipe_types"; "saved_meal_id"; "saved_meal_item_id";
   "food_entry_id"].

(** The request an endpoint method of [self] sends with [params]. *)
Definition request_of (self : Fatsecret) (params : gmap string value) : request :=
  {| req_session := session self; req_url := api_url; req_params := params |}.

(** An optional argument and its key: bound to the argument when it is
    truthy, not bound otherwise. *)
Definition optional (params : gmap string value) (k : string) (v : value) : Prop :=
  params !! k = if truthy v then Some v else None.

(** The session signs with the access token the object holds, and is public
    when it holds none. *)
Definition session_coherent (self : Fatsecret) : Prop :=
  session self =
  if present (access_token self) then
    TokenSession (access_token self) (access_token_secret self)
  else PublicSession.

(** Calendar dates: the length of a month, the dates the [datetime]
    constructor accepts, and the date after a date. *)
Definition DAYS_IN_MONTH : list Z :=
  [-1; 31; 28; 31; 30; 31; 30; 31; 31; 30; 31; 30; 31].

Definition days_in_month (y m : Z) : Z :=
  if (m =? 2) && is_leap y then 29 else nth (Z.to_nat m) DAYS_IN_MONTH 0.

Definition valid_date (dt : datetime) : Prop :=
  1 <= year dt <= 9999 /\ 1 <= month dt <= 12 /\
  1 <= day dt <= days_in_month (year dt) (month dt).

Definition next_day (dt : datetime) : datetime :=
  if day dt <? days_in_month (year dt) (month dt) then
    mk_datetime (year dt) (month dt) (day dt + 1)
      (hour dt) (minute dt) (second dt) (microsecond dt)
  else if month dt <? 12 then
    mk_datetime (year dt) (month dt + 1) 1
      (hour dt) (minute dt) (second dt) (microsecond dt)
  else
    mk_datetime (year dt + 1) 1 1
      (hour dt) (minute dt) (second dt) (microsecond dt).

(** The date reached from a date by [n] steps of one calendar day. *)
Fixpoint days_after (n : nat) (dt : datetime) : datetime :=
  match n with
  | O => dt
  | S k => next_day (days_after k dt)
  end.

(** Two datetimes on the same calendar date, and a datetime on an earlier
    calendar date than another: the order of (year, month, day). *)
Definition same_date (a b : datetime) : Prop :=
  year a = year b /\ month a = month b /\ day a = day b.

Definition date_lt (a b : datetime) : Prop :=
  year a < year b \/
  (year a = year b /\
   (month a < month b \/ (month a = month b /\ day a < day b))).

(** The order of time on datetimes, as Python compares them: by date, then
    by time of day. *)
Definition datetime_le (a b : datetime) : Prop :=
  date_lt a b \/
  (same_date a b /\
   (seconds_of_day a < seconds_of_day b \/
    (seconds_of_day a = seconds_of_day b /\ microsecond a <= microsecond b))).

(** A call that, when it raises, raises none of the four error classes of
    the module. *)
Definition untyped {A} (o : outcome A) : Prop :=
  forall e, o = Raise e -> error_code e = None.

(** ** Sample collaborators *)

(** A provider that grants every request, and a server that acknowledges
    every call; the examples below run against them. *)
Definition granting_provider : OAuth1Service :=
  {| get_request_token := fun _ => Return (VTuple [VStr "rtok"; VStr "rsec"]);
     oauth_authorize_url := fun rt => Return (VStr "http://www.fatsecret.com/oauth/authorize");
     get_access_token := fun _ _ _ => Return (VTuple [VStr "atok"; VStr "asec"]) |}.

Definition acknowledging_server (rq : request) : outcome response :=
  Return {| json := Return (VDict [("success", VDict [("value", VStr "1")])]) |}.

(** A provider that is down. *)
Definition refusing_provider : OAuth1Service :=
  {| get_request_token := fun _ => Raise (TransportError "503");
     oauth_authorize_url := fun _ => Raise (TransportError "503");
     get_access_token := fun _ _ _ => Raise (TransportError "503") |}.

(** A session built without a resumed token. *)
Definition public_self : Fatsecret :=
  {| consumer_key := VStr "key"; consumer_secret := VStr "secret";
     request_token := VNone; request_token_secret := VNone;
     access_token := VNone; access_token_secret := VNone;
     session := PublicSession |}.

(** ** Proof steps *)

(** Decide every integer test of the goal, keep the cases arithmetic
    allows. *)
Ltac decide_tests :=
  repeat match goal with
    | |- context [Z.eqb ?a ?b] => destruct (Z.eqb_spec a b)
    | |- context [Z.leb ?a ?b] => destruct (Z.leb_spec a b)
    end;
  cbn; try lia; try reflexivity.

(** Unfold one step of a stateful computation. *)
Ltac run_stateful :=
  unfold mbind, mret, stateful_bind, stateful_ret, session_get, lift;
  cbv beta iota zeta.

(** * Properties *)

(** ** The interpreter on error envelopes *)

(** A single-key envelope is decided by the one turn of the loop. *)
Lemma valid_response_single (k : string) (v : value) :
  valid_response {| json := Return (VDict [(k, v)]) |} =
  r ← dispatch (VDict [(k, v)]) (VStr k);
  Return (default VNone r).
Proof.
  cbn. destruct (dispatch _ _) as [[w|]|e]; reflexivity.
Qed.

Lemma dispatch_error (fields : list (string * value)) :
  dispatch (VDict [("error", VDict fields)]) (VStr "error") =
  error_branch (Return (VDict fields)).
Proof. reflexivity. Qed.

(** The error branch once both fields are found: what is left is the chain
    of tests on the code. *)
Lemma error_branch_fields (fields : list (string * value)) (code m : value) :
  dict_get fields "code" = Some code ->
  dict_get fields "message" = Some m ->
  error_branch (Return (VDict fields)) =
  if eq_int code 2 then
    Raise (AuthenticationError (VInt 2) (VStr unauthenticated_message))
  else if in_ints code [1; 10; 11; 12; 20; 21] then
    Raise (GeneralError code m)
  else
    b1 ← between 3 code 9;
    if b1 : bool then Raise (AuthenticationError code m)
    else
      b2 ← between 101 code 108;
      if b2 : bool then Raise (ParameterError code m)
      else
        b3 ← between 201 code 207;
        if b3 : bool then Raise (ApplicationError code m)
        else Return None.
Proof.
  intros Hc Hm. unfold error_branch. cbn. rewrite Hc. cbn. rewrite Hm.
  reflexivity.
Qed.

Lemma error_envelope_fields (fields : list (string * value)) (c : Z) (m : value) :
  dict_get fields "code" = Some (VInt c) ->
  dict_get fields "message" = Some m ->
  valid_response (error_envelope fields) =
  if c =? 2 then
    Raise (AuthenticationError (VInt 2) (VStr unauthenticated_message))
  else if existsb (Z.eqb c) [1; 10; 11; 12; 20; 21] then
    Raise (GeneralError (VInt c) m)
  else if (3 <=? c) && (c <=? 9) then Raise (AuthenticationError (VInt c) m)
  else if (101 <=? c) && (c <=? 108) then Raise (ParameterError (VInt c) m)
  else if (201 <=? c) && (c <=? 207) then Raise (ApplicationError (VInt c) m)
  else Return VNone.
Proof.
  intros Hc Hm. unfold error_envelope.
  rewrite valid_response_single, dispatch_error.
  rewrite (error_branch_fields _ _ _ Hc Hm).
  unfold eq_int, in_ints, between, int_le_value, value_le_int, eq_int. cbn.
  decide_tests.
Qed.

(** C1. For an envelope [{"error": {"code": c, "message": m}}],
    [valid_response] raises [GeneralError] when [c] is one of 1, 10, 11, 12,
    20, 21, [AuthenticationError] when [c] is 2 or lies in 3..9,
    [ParameterError] when [c] lies in 101..108 and [ApplicationError] when
    [c] lies in 201..207; the error raised carries the code [c]. *)
Theorem error_bands_raise (fields : list (string * value)) (c : Z) (m : value) :
  dict_get fields "code" = Some (VInt c) ->
  dict_get fields "message" = Some m ->
  (general_code c ->
     valid_response (error_envelope fields) = Raise (GeneralError (VInt c) m)) /\
  (authentication_code c ->
     exists m', valid_response (error_envelope fields)
                = Raise (AuthenticationError (VInt c) m')) /\
  (parameter_code c ->
     valid_response (error_envelope fields) = Raise (ParameterError (VInt c) m)) /\
  (application_code c ->
     valid_response (error_envelope fields)
     = Raise (ApplicationError (VInt c) m)).
Proof.
  intros Hc Hm. rewrite (error_envelope_fields _ _ _ Hc Hm).
  unfold general_code, authentication_code, parameter_code, application_code.
  repeat split.
  - cbn. intros H. decide_tests.
  - intros H. destruct (Z.eqb_spec c 2) as [->|Hne].
    + eexists. reflexivity.
    + exists m. cbn. decide_tests.
  - intros H. cbn. decide_tests.
  - intros H. cbn. decide_tests.
Qed.

Lemma error_bands_raise_witness :
  valid_response (error_envelope [("code", VInt 105); ("message", VStr "bad id")])
  = Raise (ParameterError (VInt 105) (VStr "bad id")).
Proof.
  apply (error_bands_raise [("code", VInt 105); ("message", VStr "bad id")]
           105 (VStr "bad id")); [reflexivity | reflexivity | ].
  unfold parameter_code. lia.
Defined.

(** C10. On an error envelope whose code is exactly 2, [valid_response]
    raises [AuthenticationError] with the fixed message "This api call
    requires an authenticated session", whatever the envelope's own message
    is; for a code of the other bands the error raised carries the
    envelope's message, and for a code outside every band nothing is
    raised. *)
Theorem code_2_fixed_message (fields : list (string * value)) (c : Z) (m : value) :
  dict_get fields "code" = Some (VInt c) ->
  dict_get fields "message" = Some m ->
  (c = 2 ->
     valid_response (error_envelope fields)
     = Raise (AuthenticationError (VInt 2)
                (VStr "This api call requires an authenticated session"))) /\
  (c <> 2 -> banded c ->
     exists e, valid_response (error_envelope fields) = Raise e /\
               error_code e = Some (VInt c) /\ error_message e = Some m) /\
  (~ banded c -> valid_response (error_envelope fields) = Return VNone).
Proof.
  intros Hc Hm. rewrite (error_envelope_fields _ _ _ Hc Hm).
  unfold banded, general_code, authentication_code, parameter_code,
    application_code.
  repeat split.
  - intros ->. reflexivity.
  - intros Hne Hb. cbn in Hb |- *.
    destruct (Z.eqb_spec c 2) as [|_]; [contradiction|].
    repeat match goal with
      | |- context [Z.eqb ?a ?b] => destruct (Z.eqb_spec a b)
      | |- context [Z.leb ?a ?b] => destruct (Z.leb_spec a b)
      end; cbn; try lia; eexists; repeat split; reflexivity.
  - intros Hb. cbn in Hb |- *. decide_tests.
Qed.

Lemma code_2_fixed_message_witness :
  valid_response (error_envelope [("code", VInt 2); ("message", VStr "ignored")])
  = Raise (AuthenticationError (VInt 2)
             (VStr "This api call requires an authenticated session")).
Proof.
  apply (code_2_fixed_message [("code", VInt 2); ("message", VStr "ignored")]
           2 (VStr "ignored")); reflexivity.
Defined.

(** C4, as stated, fails: an error envelope whose nested object has no
    ['code'] field does not fall through, the subscript raises
    [KeyError]. *)
Lemma malformed_error_raises :
  valid_response (error_envelope [("message", VStr "no code here")])
  = Raise (KeyError (VStr "code")) /\
  valid_response (error_envelope [("message", VStr "no code here")])
  <> Return VNone.
Proof. split; [reflexivity | discriminate]. Qed.

(** C4, amended. A single-key error envelope that has both fields and whose
    integer code lies outside every band raises nothing and returns [None];
    an error envelope whose nested object lacks ['code'], or has it and
    lacks ['message'], raises [KeyError] for the missing field. *)
Theorem unbanded_code_falls_through (fields : list (string * value)) :
  (forall c m,
     dict_get fields "code" = Some (VInt c) ->
     dict_get fields "message" = Some m ->
     ~ banded c ->
     valid_response (error_envelope fields) = Return VNone) /\
  (dict_get fields "code" = None ->
     valid_response (error_envelope fields) = Raise (KeyError (VStr "code"))) /\
  (forall code,
     dict_get fields "code" = Some code ->
     dict_get fields "message" = None ->
     valid_response (error_envelope fields) = Raise (KeyError (VStr "message"))).
Proof.
  repeat split.
  - intros c m Hc Hm Hb. rewrite (error_envelope_fields _ _ _ Hc Hm).
    unfold banded, general_code, authentication_code, parameter_code,
      application_code in Hb.
    cbn in Hb |- *. decide_tests.
  - intros Hc. unfold error_envelope.
    rewrite valid_response_single, dispatch_error.
    unfold error_branch. cbn. rewrite Hc. reflexivity.
  - intros code Hc Hm. unfold error_envelope.
    rewrite valid_response_single, dispatch_error.
    unfold error_branch. cbn. rewrite Hc. cbn. rewrite Hm. reflexivity.
Qed.

Lemma unbanded_code_falls_through_witness :
  valid_response (error_envelope [("code", VInt 300); ("message", VStr "odd")])
  = Return VNone.
Proof.
  apply (unbanded_code_falls_through
           [("code", VInt 300); ("message", VStr "odd")]) with (c := 300) (m := VStr "odd");
    [reflexivity | reflexivity | ].
  unfold banded, general_code, authentication_code, parameter_code,
    application_code. cbn. lia.
Defined.

(** ** The interpreter on profile envelopes *)

(** C9. On a single-key envelope [{"profile": p}] with [p] an object: when
    [p] has an ['auth_token'] field the result is the pair
    [(p['auth_token'], p['auth_secret'])] (whose second subscript raises
    [KeyError] when [p] has no ['auth_secret']); otherwise the result is [p]
    itself. *)
Theorem profile_envelope (p : list (string * value)) :
  valid_response {| json := Return (VDict [("profile", VDict p)]) |} =
  match dict_get p "auth_token" with
  | Some t =>
      match dict_get p "auth_secret" with
      | Some s => Return (VTuple [t; s])
      | None => Raise (KeyError (VStr "auth_secret"))
      end
  | None => Return (VDict p)
  end.
Proof.
  rewrite valid_response_single. cbn.
  destruct (dict_get p "auth_token") as [t|] eqn:Ht.
  - rewrite bool_decide_eq_true_2 by eauto. cbn.
    destruct (dict_get p "auth_secret"); reflexivity.
  - rewrite bool_decide_eq_false_2 by (intros [? ?]; discriminate).
    reflexivity.
Qed.

(** ** The interpreter on envelopes with several keys *)

(** C2, as stated, fails: with ['success'] iterated before ['error'] the
    loop returns [True] at its first turn and the error, although its code
    is in a band, is never looked at. *)
Lemma success_before_error_returns :
  valid_response
    {| json := Return (VDict [("success", VInt 1);
                              ("error", VDict [("code", VInt 2);
                                               ("message", VStr "denied")])]) |}
  = Return (VBool true).
Proof. reflexivity. Qed.

(** A key the chain has no branch for ends its turn without a result. *)
Lemma dispatch_unrecognized (js : value) (k : string) :
  ~ In k recognized_keys -> dispatch js (VStr k) = Return None.
Proof.
  intros H. unfold dispatch, in_strs, eq_str. cbn [existsb].
  repeat match goal with
    | |- context [String.eqb k ?s] =>
        destruct (String.eqb_spec k s) as [->|?];
        [exfalso; apply H; cbn; tauto|]
    end.
  reflexivity.
Qed.

Lemma scan_keys_skip (js : value) (pre : list (string * value)) (rest : list value) :
  (forall k, In k (map fst pre) -> ~ In k recognized_keys) ->
  scan_keys js (map (fun kv => VStr (fst kv)) pre ++ rest)%list = scan_keys js rest.
Proof.
  induction pre as [|[k v] pre IH]; intros H; [reflexivity|].
  cbn [map app scan_keys fst].
  rewrite dispatch_unrecognized by (apply H; cbn; auto).
  cbn. apply IH. intros k' Hk'. apply H. cbn. auto.
Qed.

Lemma dict_get_skip (pre post : list (string * value)) (k : string) (v : value) :
  ~ In k (map fst pre) ->
  dict_get (pre ++ (k, v) :: post)%list k = Some v.
Proof.
  induction pre as [|[k' v'] pre IH]; intros H; cbn.
  - rewrite String.eqb_refl. reflexivity.
  - destruct (String.eqb_spec k' k) as [->|Hne].
    + exfalso. apply H. cbn. auto.
    + apply IH. intros Hin. apply H. cbn. auto.
Qed.

(** A turn depends on the envelope only through [response.json()[key]]. *)
Lemma dispatch_item (js js' key : value) :
  getitem js key = getitem js' key -> dispatch js key = dispatch js' key.
Proof. intros H. unfold dispatch. rewrite H. reflexivity. Qed.

(** The turn of a recognized key other than ['error'] always ends the loop:
    it returns or it raises. *)
Lemma dispatch_recognized_ends (js : value) (k : string) :
  In k recognized_keys -> k <> "error" ->
  dispatch js (VStr k) <> Return None.
Proof.
  intros Hin Hne. cbn in Hin.
  repeat (destruct Hin as [<-|Hin]; [try congruence|]); try contradiction;
    unfold dispatch, unwrap; cbn; try discriminate;
    destruct (getitem js _) as [obj|e]; cbn; try discriminate;
    try (destruct (getitem obj _); cbn; discriminate).
  destruct (contains "auth_token" obj) as [[|]|]; cbn; try discriminate.
  destruct (getitem obj (VStr "auth_token")); cbn; try discriminate.
  destruct (getitem obj (VStr "auth_secret")); cbn; discriminate.
Qed.

(** The same for ['error'] when its code is an integer of a band and its
    message is there: the turn raises the error of that band. *)
Lemma dispatch_error_banded (js : value) (fields : list (string * value))
    (c : Z) (m : value) :
  getitem js (VStr "error") = Return (VDict fields) ->
  dict_get fields "code" = Some (VInt c) ->
  dict_get fields "message" = Some m ->
  banded c ->
  exists e, dispatch js (VStr "error") = Raise e /\ typed_error c e.
Proof.
  intros Hjs Hc Hm Hb.
  rewrite (dispatch_item js (VDict [("error", VDict fields)])) by (rewrite Hjs; reflexivity).
  rewrite dispatch_error, (error_branch_fields _ _ _ Hc Hm).
  unfold typed_error.
  unfold banded, general_code, authentication_code, parameter_code,
    application_code in *.
  unfold eq_int, in_ints, between, int_le_value, value_le_int, eq_int.
  cbn in Hb |- *.
  repeat match goal with
    | |- context [Z.eqb ?a ?b] => destruct (Z.eqb_spec a b)
    | |- context [Z.leb ?a ?b] => destruct (Z.leb_spec a b)
    end; cbn; try lia; subst;
    eexists; (split; [reflexivity|]); cbn;
    first [ left; split; [lia | eexists; reflexivity]
          | right; left; split; [lia | eexists; reflexivity]
          | right; right; left; split; [lia | eexists; reflexivity]
          | right; right; right; split; [lia | eexists; reflexivity] ].
Qed.

(** The loop on an envelope whose first recognized key is [k]: the keys
    before it are skipped and the turn of [k] is run. *)
Lemma valid_response_first_recognized (pre post : list (string * value))
    (k : string) (v : value) :
  (forall k', In k' (map fst pre) -> ~ In k' recognized_keys) ->
  In k recognized_keys ->
  valid_response {| json := Return (VDict (pre ++ (k, v) :: post)) |} =
  r ← dispatch (VDict [(k, v)]) (VStr k);
  match r with
  | Some w => Return w
  | None =>
      scan_keys (VDict (pre ++ (k, v) :: post))
        (map (fun kv => VStr (fst kv)) post)
  end.
Proof.
  intros Hpre Hk.
  assert (Hget : dict_get (pre ++ (k, v) :: post)%list k = Some v).
  { apply dict_get_skip. intros Hin. exact (Hpre k Hin Hk). }
  unfold valid_response. cbn [json mbind outcome_bind].
  replace (truthy (VDict (pre ++ (k, v) :: post))) with true
    by (destruct pre; reflexivity).
  cbn [iter]. rewrite map_app. cbn [map fst mbind outcome_bind].
  rewrite scan_keys_skip by exact Hpre.
  cbn [scan_keys].
  rewrite (dispatch_item _ (VDict [(k, v)]) (VStr k)).
  - reflexivity.
  - cbn. rewrite Hget, String.eqb_refl. reflexivity.
Qed.

(** C2, amended. On an envelope that holds an ['error'] key, with an integer
    code of a band and a message, next to other keys: when ['error'] is
    iterated before every other recognized key, [valid_response] raises the
    typed error of the band; when another recognized key is iterated first,
    the result is the one of that key alone and the error is not looked
    at. *)
Theorem first_recognized_key_decides (pre post : list (string * value)) :
  (forall k, In k (map fst pre) -> ~ In k recognized_keys) ->
  (forall fields c m,
     dict_get fields "code" = Some (VInt c) ->
     dict_get fields "message" = Some m ->
     banded c ->
     exists e,
       valid_response
         {| json := Return (VDict (pre ++ ("error", VDict fields) :: post)) |}
       = Raise e /\ typed_error c e) /\
  (forall k v,
     In k recognized_keys -> k <> "error" ->
     valid_response {| json := Return (VDict (pre ++ (k, v) :: post)) |}
     = valid_response {| json := Return (VDict [(k, v)]) |}).
Proof.
  intros Hpre. split.
  - intros fields c m Hc Hm Hb.
    rewrite valid_response_first_recognized by (cbn; auto).
    destruct (dispatch_error_banded (VDict [("error", VDict fields)])
                fields c m eq_refl Hc Hm Hb) as (e & He & Hty).
    exists e. rewrite He. split; [reflexivity | exact Hty].
  - intros k v Hk Hne.
    rewrite valid_response_first_recognized by assumption.
    rewrite valid_response_single.
    pose proof (dispatch_recognized_ends (VDict [(k, v)]) k Hk Hne) as Hends.
    destruct (dispatch (VDict [(k, v)]) (VStr k)) as [[w|]|e];
      [reflexivity | congruence | reflexivity].
Qed.

Lemma first_recognized_key_decides_witness :
  exists e,
    valid_response
      {| json := Return (VDict ([("status", VStr "ok")] ++
                                ("error", VDict [("code", VInt 107);
                                                 ("message", VStr "bad")])
                                :: [("success", VInt 1)])) |}
    = Raise e /\ typed_error 107 e.
Proof.
  apply (first_recognized_key_decides [("status", VStr "ok")]
           [("success", VInt 1)])
    with (m := VStr "bad").
  - intros k [<-|[]]. cbn. intros H.
    repeat (destruct H as [H|H]; [discriminate H|]). exact H.
  - reflexivity.
  - reflexivity.
  - unfold banded, parameter_code. right. right. left. lia.
Defined.

(** ** [unix_time] *)

Example toordinal_epoch : toordinal epoch = 719163.
Proof. reflexivity. Qed.

Example unix_time_last_microsecond :
  unix_time (VDatetime (mk_datetime 2000 1 1 23 59 59 999999)) = Return 10957.
Proof. reflexivity. Qed.

Example unix_time_before_epoch :
  unix_time (VDatetime (mk_datetime 1969 12 31 23 0 0 0)) = Return (-1).
Proof. reflexivity. Qed.

(** The day count of the difference is the difference of the ordinals: the
    time of day of a datetime never carries into the days. *)
Lemma unix_time_ordinal (dt : datetime) :
  valid_time dt ->
  unix_time (VDatetime dt) = Return (toordinal dt - toordinal epoch).
Proof.
  unfold valid_time. intros (Hh & Hm & Hs & Hus).
  unfold unix_time, datetime_sub, mk_timedelta, seconds_of_day. cbn [days].
  change (second epoch + minute epoch * 60 + hour epoch * 3600) with 0.
  change (microsecond epoch) with 0.
  rewrite !Z.sub_0_r.
  rewrite (Z.div_small (microsecond dt)) by lia.
  rewrite Z.add_0_r, Z.div_small by lia.
  f_equal. lia.
Qed.

(** ** The session invariant *)

Lemma is_token_pair_inv (v : value) :
  is_token_pair v = true ->
  exists t s, v = VTuple [t; s] /\ present t = true /\ present s = true.
Proof.
  destruct v as [| | | | |xs| |]; try discriminate.
  destruct xs as [|t [|s [|? ?]]]; try discriminate.
  cbn. intros H. apply andb_prop in H. destruct H. eauto.
Qed.

Lemma getitem_pair_0 (t s : value) : getitem (VTuple [t; s]) (VInt 0) = Return t.
Proof. reflexivity. Qed.

Lemma getitem_pair_1 (t s : value) : getitem (VTuple [t; s]) (VInt 1) = Return s.
Proof. reflexivity. Qed.

Lemma get_session_pair (t s : value) :
  get_session (VTuple [t; s]) = Return (TokenSession t s).
Proof. reflexivity. Qed.

(** The constructor, on nothing and on a token pair. *)
Lemma init_invariant (ck cs session_token : value) (self : Fatsecret) :
  resumable session_token ->
  __init__ ck cs session_token = Return self ->
  token_invariant self.
Proof.
  unfold resumable, __init__. intros Hres.
  destruct (truthy session_token) eqn:Htr.
  - destruct (is_token_pair_inv _ (Hres eq_refl)) as (t & s & -> & Ht & Hs).
    rewrite getitem_pair_0, getitem_pair_1, get_session_pair.
    cbn. intros [= <-]. unfold token_invariant. cbn. congruence.
  - cbn. intros [= <-]. reflexivity.
Qed.

(** Asking for a request token leaves the access token alone, whether the
    provider answers or not. *)
Lemma get_authorize_url_access (oauth : OAuth1Service) (cb : value)
    (self : Fatsecret) :
  let self' := snd (get_authorize_url oauth cb self) in
  access_token self' = access_token self /\
  access_token_secret self' = access_token_secret self.
Proof.
  unfold get_authorize_url, lift, modify, gets, mbind, stateful_bind. cbn.
  destruct (get_request_token oauth cb) as [answer|e]; cbn; [|auto].
  destruct (unpack2 answer) as [[t s]|e]; cbn; [|auto].
  destruct (oauth_authorize_url oauth t); cbn; auto.
Qed.

(** Completing the authorization keeps the invariant: either the exchange
    raises and nothing is assigned, or both components are assigned. *)
Lemma authenticate_invariant (oauth : OAuth1Service) (verifier : value)
    (self : Fatsecret) :
  answers_token_pairs oauth ->
  token_invariant self ->
  token_invariant (snd (authenticate oauth verifier self)).
Proof.
  intros Hsvc Hinv.
  unfold authenticate, lift, modify, gets, mbind, mret, stateful_bind,
    stateful_ret.
  cbv beta iota.
  destruct (get_access_token oauth _ _ verifier) as [answer|e] eqn:Hans;
    [|exact Hinv].
  destruct (is_token_pair_inv _ (Hsvc _ _ _ _ Hans)) as (t & s & -> & Ht & Hs).
  rewrite getitem_pair_0, getitem_pair_1, get_session_pair.
  unfold token_invariant. cbn. congruence.
Qed.

(** C5. In every state a session object reaches (built with no resumed
    token or with a resumed token pair, then driven through
    [get_authorize_url], [authenticate] and [close], whether the calls
    return or raise) [access_token] and [access_token_secret] are both
    [None] or both set. *)
Theorem access_token_never_partial (self : Fatsecret) :
  reachable self -> token_invariant self.
Proof.
  induction 1 as [ck cs st self Hres Hinit
                 | oauth cb self Hreach IH
                 | oauth v self Hsvc Hreach IH
                 | self Hreach IH].
  - exact (init_invariant ck cs st self Hres Hinit).
  - destruct (get_authorize_url_access oauth cb self) as [Ht Hs].
    unfold token_invariant in *. rewrite Ht, Hs. exact IH.
  - exact (authenticate_invariant oauth v self Hsvc IH).
  - exact IH.
Qed.

Lemma access_token_never_partial_witness :
  token_invariant
    (snd (authenticate granting_provider (VStr "8052") public_self)).
Proof.
  apply access_token_never_partial.
  apply reach_authenticate.
  - intros rt rts verifier answer [= <-]. reflexivity.
  - apply (reach_init (VStr "key") (VStr "secret") VNone).
    + intros H. discriminate H.
    + reflexivity.
Defined.

(** The session after the handshake against the granting provider holds
    both components. *)
Example authenticate_sets_both :
  let self := snd (authenticate granting_provider (VStr "8052") public_self) in
  access_token self = VStr "atok" /\ access_token_secret self = VStr "asec" /\
  session self = TokenSession (VStr "atok") (VStr "asec").
Proof. repeat split. Qed.

(** A resumed pair is adopted at construction. *)
Example init_resumed :
  __init__ (VStr "key") (VStr "secret") (VTuple [VStr "tok"; VStr "sec"]) =
  Return {| consumer_key := VStr "key"; consumer_secret := VStr "secret";
            request_token := VNone; request_token_secret := VNone;
            access_token := VStr "tok"; access_token_secret := VStr "sec";
            session := TokenSession (VStr "tok") (VStr "sec") |}.
Proof. reflexivity. Qed.

(** ** Endpoint methods *)

(** C7. The request [food_add_favorite] sends binds ['serving_id'] and
    ['number_of_units'] (to the arguments) exactly when both arguments are
    truthy; when either is absent or falsy the request has neither key. *)
Theorem food_add_favorite_pairs (http : request -> outcome response)
    (self : Fatsecret) (food_id serving_id number_of_units : value)
    (sent : list request) :
  exists rq,
    snd (food_add_favorite http self food_id serving_id number_of_units sent)
    = (sent ++ [rq])%list /\
    if truthy serving_id && truthy number_of_units then
      req_params rq !! "serving_id" = Some serving_id /\
      req_params rq !! "number_of_units" = Some number_of_units
    else
      req_params rq !! "serving_id" = None /\
      req_params rq !! "number_of_units" = None.
Proof.
  unfold food_add_favorite. run_stateful.
  destruct (truthy serving_id && truthy number_of_units);
    (eexists; split; [destruct (http _); reflexivity|]);
    cbn [req_params]; split; by simplify_map_eq.
Qed.

(** Only [serving_id] given: the request carries the method, the format and
    the food, and neither optional key. *)
Example food_add_favorite_serving_only :
  let run := food_add_favorite acknowledging_server public_self
               (VInt 4384) (VInt 17) VNone [] in
  fst run = Return (VBool true) /\
  exists rq, snd run = [rq] /\
    req_params rq !! "food_id" = Some (VInt 4384) /\
    req_params rq !! "serving_id" = None /\
    req_params rq !! "number_of_units" = None.
Proof.
  split; [reflexivity|]. eexists. split; [reflexivity|].
  cbn [req_params]. repeat split; by simplify_map_eq.
Qed.

(** C6, as stated, fails: a date given as a day number, the form the
    docstring of [food_entries_get] describes, is a supplied selector, yet
    [unix_time] raises [TypeError] on it and no request is sent. *)
Lemma day_number_date_raises :
  truthy (VInt 16587) = true /\
  food_entries_get acknowledging_server public_self VNone (VInt 16587) []
  = (Raise TypeError, []).
Proof. split; reflexivity. Qed.

(** C6, amended. [food_entries_get] with neither selector (both falsy) sends
    nothing and returns [None]; with a truthy [food_entry_id] it sends
    exactly one request, which binds ['food_entry_id'] and never ['date'],
    whatever [date] is; with only a date that is a datetime it sends exactly
    one request, which binds ['date'] to the day count of the date; with
    only a date that is truthy and not a datetime it raises [TypeError] and
    sends nothing. *)
Theorem food_entries_get_selectors (http : request -> outcome response)
    (self : Fatsecret) (food_entry_id date : value) (sent : list request) :
  let run := food_entries_get http self food_entry_id date sent in
  (truthy food_entry_id = false -> truthy date = false -> skipped run sent) /\
  (truthy food_entry_id = true ->
     exists rq, sent_exactly run sent [rq] /\
       req_params rq !! "food_entry_id" = Some food_entry_id /\
       req_params rq !! "date" = None) /\
  (forall dt,
     truthy food_entry_id = false -> date = VDatetime dt ->
     exists rq, sent_exactly run sent [rq] /\
       req_params rq !! "date" = Some (VInt (days (datetime_sub dt epoch))) /\
       req_params rq !! "food_entry_id" = None) /\
  (truthy food_entry_id = false -> truthy date = true ->
     (forall dt, date <> VDatetime dt) ->
     run = (Raise TypeError, sent)).
Proof.
  unfold food_entries_get, skipped, sent_exactly. cbv zeta.
  split; [|split; [|split]].
  - intros -> ->. reflexivity.
  - intros ->. run_stateful.
    eexists; split; [destruct (http _); reflexivity|].
    cbn [req_params]. split; by simplify_map_eq.
  - intros dt -> ->. cbn [truthy unix_time]. run_stateful.
    eexists; split; [destruct (http _); reflexivity|].
    cbn [req_params]. split; by simplify_map_eq.
  - intros -> -> Hnd.
    destruct date; try reflexivity. exfalso. exact (Hnd _ eq_refl).
Qed.

Lemma food_entries_get_selectors_witness :
  skipped (food_entries_get acknowledging_server public_self VNone VNone []) [].
Proof.
  apply (food_entries_get_selectors acknowledging_server public_self
           VNone VNone []); reflexivity.
Defined.

(** Both selectors given: one request, by id. *)
Example food_entries_get_both :
  exists rq,
    snd (food_entries_get acknowledging_server public_self (VInt 77)
           (VDatetime (mk_datetime 2015 6 1 8 0 0 0)) []) = [rq] /\
    req_params rq !! "food_entry_id" = Some (VInt 77) /\
    req_params rq !! "date" = None.
Proof.
  eexists. split; [reflexivity|]. cbn [req_params].
  split; by simplify_map_eq.
Qed.

(** C3, as stated, fails: with [shift_to_id = 0], no [shift_to_name] and a
    [kcals] value, the first guard takes its [elif kcals] branch and the
    request is sent. *)
Lemma kcals_stands_in_for_name :
  let run := exercise_entry_edit acknowledging_server public_self
               (VInt 0) (VInt 5) (VInt 30) VNone VNone VNone (VInt 250) [] in
  eq_int (VInt 0) 0 = true /\ truthy VNone = false /\
  fst run = Return (VBool true) /\
  length (snd run) = 1%nat /\
  ~ skipped run [].
Proof.
  cbv zeta. repeat split.
  unfold skipped. intros H. apply (f_equal snd) in H. discriminate H.
Qed.

(** A date that is absent or a datetime never makes [set_date] raise. *)
Lemma set_date_returns (date : value) (params : gmap string value) :
  (truthy date = true -> exists dt, date = VDatetime dt) ->
  exists params', set_date date params = Return params'.
Proof.
  intros H. unfold set_date. destruct (truthy date).
  - destruct (H eq_refl) as [dt ->]. cbn. eauto.
  - eauto.
Qed.

(** C3, amended. A call of [exercise_entry_edit] (its date absent or a
    datetime) in which [shift_to_id] is 0 while [shift_to_name] and [kcals]
    are both absent, or in which [shift_from_id] is 0 while
    [shift_from_name] is absent, sends nothing, raises nothing and returns
    [None]. *)
Theorem exercise_entry_edit_skips (http : request -> outcome response)
    (self : Fatsecret)
    (shift_to_id shift_from_id minutes date shift_to_name shift_from_name
       kcals : value) (sent : list request) :
  (truthy date = true -> exists dt, date = VDatetime dt) ->
  (eq_int shift_to_id 0 = true /\ truthy shift_to_name = false /\
   truthy kcals = false) \/
  (eq_int shift_from_id 0 = true /\ truthy shift_from_name = false) ->
  skipped (exercise_entry_edit http self shift_to_id shift_from_id minutes
             date shift_to_name shift_from_name kcals sent) sent.
Proof.
  intros Hdate Hskip. unfold exercise_entry_edit, skipped. cbv zeta.
  match goal with
  | |- context [set_date date ?p] =>
      destruct (set_date_returns date p Hdate) as [params' ->]
  end.
  unfold mbind at 1. unfold stateful_bind, lift. cbv beta iota.
  destruct Hskip as [(Hto & Hname & Hk) | (Hfrom & Hname)].
  - unfold shift_to_guard. rewrite Hto, Hname, Hk. reflexivity.
  - destruct (shift_to_guard _ _ _ _) as [p|]; [|reflexivity].
    unfold shift_from_guard. rewrite Hfrom, Hname. reflexivity.
Qed.

Lemma exercise_entry_edit_skips_witness :
  skipped (exercise_entry_edit acknowledging_server public_self
             (VInt 0) (VInt 5) (VInt 30) VNone VNone VNone VNone []) [].
Proof.
  apply exercise_entry_edit_skips.
  - intros H. discriminate H.
  - left. repeat split.
Defined.

(** * Further properties *)

(** ** The interpreter on the other envelopes *)

(** X1. On a single-key envelope whose key is one of the seven wrappers
    ([foods], [recipes], [saved_meals], [saved_meal_items],
    [exercise_types], [food_entries], [month]) and whose nested value is an
    object, [valid_response] returns what the object binds to the wrapper's
    sub-key, and raises [KeyError] for the sub-key when the object does not
    bind it. *)
Theorem wrapper_unwraps (k sub : string) (obj : list (string * value)) :
  In (k, sub) wrapper_keys ->
  valid_response {| json := Return (VDict [(k, VDict obj)]) |} =
  match dict_get obj sub with
  | Some v => Return v
  | None => Raise (KeyError (VStr sub))
  end.
Proof.
  intros Hin. rewrite valid_response_single. cbn in Hin.
  repeat (destruct Hin as [[= <- <-]|Hin]; [cbn; destruct (dict_get obj _); reflexivity|]).
  contradiction.
Qed.

Lemma wrapper_unwraps_witness :
  valid_response
    {| json := Return (VDict [("foods", VDict [("total_results", VStr "0")])]) |}
  = Raise (KeyError (VStr "food")).
Proof.
  apply (wrapper_unwraps "foods" "food" [("total_results", VStr "0")]).
  cbn. auto.
Defined.

(** X2. On a single-key envelope whose key is one of [food], [recipe],
    [recipe_types], [saved_meal_id], [saved_meal_item_id], [food_entry_id],
    [valid_response] returns the nested value as it is, whatever it is. *)
Theorem verbatim_keys_return (k : string) (v : value) :
  In k verbatim_keys ->
  valid_response {| json := Return (VDict [(k, v)]) |} = Return v.
Proof.
  intros Hin. rewrite valid_response_single. cbn in Hin.
  repeat (destruct Hin as [<-|Hin]; [reflexivity|]). contradiction.
Qed.

Lemma verbatim_keys_return_witness :
  valid_response {| json := Return (VDict [("saved_meal_id", VStr "8812")]) |}
  = Return (VStr "8812").
Proof.
  apply verbatim_keys_return. cbn. auto.
Defined.

(** X3. An envelope none of whose keys is recognized, the empty object
    included, makes [valid_response] return [None] without raising. *)
Theorem unrecognized_envelope_returns_none (kvs : list (string * value)) :
  (forall k, In k (map fst kvs) -> ~ In k recognized_keys) ->
  valid_response {| json := Return (VDict kvs) |} = Return VNone.
Proof.
  intros H. unfold valid_response. cbn [json mbind outcome_bind].
  destruct kvs as [|kv kvs]; [reflexivity|].
  cbn [truthy iter mbind outcome_bind].
  rewrite <- (app_nil_r (map _ (kv :: kvs))).
  rewrite scan_keys_skip by exact H. reflexivity.
Qed.

Lemma unrecognized_envelope_returns_none_witness :
  valid_response
    {| json := Return (VDict [("status", VStr "ok"); ("errors", VList [])]) |}
  = Return VNone.
Proof.
  apply unrecognized_envelope_returns_none.
  intros k [<-|[<-|[]]]; cbn; intros H;
    repeat (destruct H as [H|H]; [discriminate H|]); exact H.
Defined.

Lemma untyped_return {A} (a : A) : untyped (Return a).
Proof. intros e H. discriminate H. Qed.

Lemma untyped_bind {A B} (m : outcome A) (f : A -> outcome B) :
  untyped m -> (forall a, untyped (f a)) -> untyped (m ≫= f).
Proof.
  intros Hm Hf e. destruct m as [a|e0]; cbn.
  - apply Hf.
  - intros [= <-]. apply Hm. reflexivity.
Qed.

Lemma untyped_seq_index {A} (xs : list A) (i : Z) : untyped (seq_index xs i).
Proof.
  intros e. unfold seq_index. repeat case_match; intros [= <-]; reflexivity.
Qed.

Lemma untyped_getitem (v key : value) : untyped (getitem v key).
Proof.
  intros e. unfold getitem.
  repeat case_match; try (intros [= <-]; reflexivity);
    apply untyped_seq_index.
Qed.

Lemma untyped_contains (s : string) (v : value) : untyped (contains s v).
Proof.
  intros e. unfold contains. repeat case_match; intros [= <-]; reflexivity.
Qed.

Lemma untyped_unwrap (item : outcome value) (sub : string) :
  untyped item -> untyped (unwrap item sub).
Proof.
  intros Hi. unfold unwrap. apply untyped_bind; [exact Hi|]. intros obj.
  apply untyped_bind; [apply untyped_getitem|]. intros v. apply untyped_return.
Qed.

(** Only the turn of ['error'] can raise an error of the module. *)
Lemma untyped_dispatch (js : value) (k : string) :
  k <> "error" -> untyped (dispatch js (VStr k)).
Proof.
  intros Hne. unfold dispatch. cbn [eq_str].
  destruct (String.eqb_spec k "error") as [|_]; [contradiction|].
  pose proof (untyped_getitem js (VStr k)) as Hitem.
  repeat case_match;
    try apply untyped_return;
    try (apply untyped_unwrap; exact Hitem).
  - apply untyped_bind; [exact Hitem|]. intros p.
    apply untyped_bind; [apply untyped_contains|]. intros [|].
    + apply untyped_bind; [exact Hitem|]. intros p1.
      apply untyped_bind; [apply untyped_getitem|]. intros t.
      apply untyped_bind; [exact Hitem|]. intros p2.
      apply untyped_bind; [apply untyped_getitem|]. intros s0.
      apply untyped_return.
    + apply untyped_bind; [exact Hitem|]. intros p3. apply untyped_return.
  - apply untyped_bind; [exact Hitem|]. intros v. apply untyped_return.
Qed.

Lemma untyped_scan_keys (js : value) (ks : list string) :
  ~ In "error" ks -> untyped (scan_keys js (map VStr ks)).
Proof.
  induction ks as [|k ks IH]; intros Hni; cbn [map scan_keys].
  - apply untyped_return.
  - apply untyped_bind.
    + apply untyped_dispatch. intros ->. apply Hni. cbn. auto.
    + intros [v|]; [apply untyped_return|]. apply IH.
      intros Hin. apply Hni. cbn. auto.
Qed.

(** X4. On an envelope without an ['error'] key, [valid_response] never
    raises [GeneralError], [AuthenticationError], [ParameterError] or
    [ApplicationError]: whatever it raises there (a missing sub-key, a
    nested value of the wrong type) is a built-in exception. *)
Theorem typed_errors_need_error_key (kvs : list (string * value)) (e : exn) :
  ~ In "error" (map fst kvs) ->
  valid_response {| json := Return (VDict kvs) |} = Raise e ->
  error_code e = None.
Proof.
  intros Hni. unfold valid_response. cbn [json mbind outcome_bind].
  destruct (truthy (VDict kvs)); [|discriminate].
  cbn [iter mbind outcome_bind].
  replace (map (fun kv : string * value => VStr (fst kv)) kvs)
    with (map VStr (map fst kvs)) by (rewrite map_map; reflexivity).
  apply untyped_scan_keys. exact Hni.
Qed.

Lemma typed_errors_need_error_key_witness :
  error_code (KeyError (VStr "recipe")) = None.
Proof.
  apply (typed_errors_need_error_key [("recipes", VDict [])]).
  - cbn. intros [H|[]]. discriminate H.
  - reflexivity.
Defined.

(** The loop sees the envelope only through the items of the keys it
    visits. *)
Lemma scan_keys_ext (js js' : value) (ks : list value) :
  (forall k, In k ks -> getitem js k = getitem js' k) ->
  scan_keys js ks = scan_keys js' ks.
Proof.
  induction ks as [|k ks IH]; intros H; [reflexivity|].
  cbn [scan_keys]. rewrite (dispatch_item js js' k) by (apply H; cbn; auto).
  destruct (dispatch js' k) as [[v|]|e]; cbn; try reflexivity.
  apply IH. intros k' Hk'. apply H. cbn. auto.
Qed.

(** X5. An ['error'] entry whose integer code lies outside every band does
    not end the loop: when it is iterated first, the result is the one of
    the rest of the envelope, as if the entry were not there. *)
Theorem unbanded_error_is_skipped (fields post : list (string * value))
    (c : Z) (m : value) :
  dict_get fields "code" = Some (VInt c) ->
  dict_get fields "message" = Some m ->
  ~ banded c ->
  ~ In "error" (map fst post) ->
  valid_response {| json := Return (VDict (("error", VDict fields) :: post)) |}
  = valid_response {| json := Return (VDict post) |}.
Proof.
  intros Hc Hm Hb Hni. unfold valid_response.
  cbn [json mbind outcome_bind truthy iter map fst scan_keys].
  rewrite (dispatch_item _ (VDict [("error", VDict fields)]) (VStr "error"))
    by reflexivity.
  rewrite dispatch_error, (error_branch_fields _ _ _ Hc Hm).
  replace (if eq_int (VInt c) 2 then _ else _)
    with (@Return (option value) None).
  2:{ unfold banded, general_code, authentication_code, parameter_code,
        application_code in Hb.
      unfold eq_int, in_ints, between, int_le_value, value_le_int, eq_int.
      cbn in Hb |- *. decide_tests. }
  cbn [mbind outcome_bind].
  destruct post as [|kv post']; [reflexivity|].
  cbn [truthy mbind outcome_bind]. apply scan_keys_ext.
  intros k Hk. apply in_map_iff in Hk. destruct Hk as ([k' v'] & <- & Hin).
  cbn [fst getitem dict_get].
  destruct (String.eqb_spec "error" k') as [<-|_]; [|reflexivity].
  exfalso. apply Hni. apply in_map_iff. exists ("error", v'). auto.
Qed.

Lemma unbanded_error_is_skipped_witness :
  valid_response
    {| json := Return (VDict [("error", VDict [("code", VInt 0);
                                               ("message", VStr "none")]);
                              ("success", VDict [("value", VStr "1")])]) |}
  = valid_response
      {| json := Return (VDict [("success", VDict [("value", VStr "1")])]) |}.
Proof.
  apply (unbanded_error_is_skipped
           [("code", VInt 0); ("message", VStr "none")]
           [("success", VDict [("value", VStr "1")])] 0 (VStr "none")).
  - reflexivity.
  - reflexivity.
  - unfold banded, general_code, authentication_code, parameter_code,
      application_code. cbn. lia.
  - cbn. intros [H|[]]. discriminate H.
Defined.

(** X6. A body that decodes to a number other than zero, or to [true], is
    truthy and cannot be iterated: [valid_response] raises [TypeError]. *)
Theorem numeric_body_raises (js : value) (n : Z) :
  as_int js = Some n -> n <> 0 ->
  valid_response {| json := Return js |} = Raise TypeError.
Proof.
  intros Hn Hne. destruct js as [|b|z| | | | |]; try discriminate Hn.
  - destruct b; [reflexivity|]. cbn in Hn. congruence.
  - cbn in Hn. injection Hn as ->. unfold valid_response. cbn.
    destruct (Z.eqb_spec n 0); [contradiction|reflexivity].
Qed.

Lemma numeric_body_raises_witness :
  valid_response {| json := Return (VInt 1) |} = Raise TypeError.
Proof.
  apply (numeric_body_raises (VInt 1) 1); [reflexivity | lia].
Defined.

(** ** [unix_time] over the calendar *)

Lemma days_before_year_succ (y : Z) :
  days_before_year (y + 1) =
  days_before_year y + 365 + (if is_leap y then 1 else 0).
Proof.
  unfold days_before_year, is_leap. cbv zeta.
  replace (y + 1 - 1) with y by lia.
  destruct (Z.eqb_spec (y mod 4) 0), (Z.eqb_spec (y mod 100) 0),
    (Z.eqb_spec (y mod 400) 0); cbn [negb andb orb];
    Z.div_mod_to_equations; lia.
Qed.

Lemma days_before_month_succ (y m : Z) :
  1 <= m < 12 ->
  days_before_month y (m + 1) = days_before_month y m + days_in_month y m.
Proof.
  intros Hm. unfold days_before_month, days_in_month.
  assert (Hcases : m = 1 \/ m = 2 \/ m = 3 \/ m = 4 \/ m = 5 \/ m = 6 \/
                   m = 7 \/ m = 8 \/ m = 9 \/ m = 10 \/ m = 11) by lia.
  destruct (is_leap y);
    repeat (destruct Hcases as [-> | Hcases]; [reflexivity|]);
    subst; reflexivity.
Qed.

Lemma toordinal_next_day (dt : datetime) :
  valid_date dt -> toordinal (next_day dt) = toordinal dt + 1.
Proof.
  unfold valid_date, next_day, toordinal, ymd2ord.
  intros (Hy & Hm & Hd).
  destruct (Z.ltb_spec (day dt) (days_in_month (year dt) (month dt))) as [Hlt|Hge].
  - cbn [year month day]. lia.
  - assert (Hday : day dt = days_in_month (year dt) (month dt)) by lia.
    destruct (Z.ltb_spec (month dt) 12) as [Hm12|Hm12]; cbn [year month day].
    + rewrite days_before_month_succ by lia. lia.
    + assert (Hmonth : month dt = 12) by lia.
      rewrite days_before_year_succ. rewrite Hday, Hmonth.
      change (days_before_month (year dt + 1) 1) with 0.
      change (days_in_month (year dt) 12) with 31.
      replace (days_before_month (year dt) 12)
        with (334 + (if is_leap (year dt) then 1 else 0))
        by (unfold days_before_month; destruct (is_leap (year dt)); reflexivity).
      lia.
Qed.

(** X8. The day after a calendar date gets the next integer: for every date
    the [datetime] constructor accepts, whether the next day falls in the
    same month, in the next month (leap Februaries included) or in the next
    year, [unix_time] grows by exactly one. *)
Theorem unix_time_next_day (dt : datetime) (n : Z) :
  valid_date dt -> valid_time dt ->
  unix_time (VDatetime dt) = Return n ->
  unix_time (VDatetime (next_day dt)) = Return (n + 1).
Proof.
  intros Hd Ht. rewrite (unix_time_ordinal dt Ht). intros [= <-].
  rewrite unix_time_ordinal.
  - rewrite (toordinal_next_day dt Hd). f_equal. lia.
  - unfold valid_time, next_day in *.
    repeat case_match; cbn [hour minute second microsecond]; exact Ht.
Qed.

Lemma unix_time_next_day_witness :
  unix_time (VDatetime (next_day (mk_datetime 2016 2 28 9 15 0 0)))
  = Return (16859 + 1).
Proof.
  apply unix_time_next_day.
  - unfold valid_date. cbn [year month day].
    change (days_in_month 2016 2) with 29. lia.
  - unfold valid_time. cbn. lia.
  - reflexivity.
Defined.

Example next_day_leap_february :
  next_day (mk_datetime 2016 2 28 9 15 0 0) = mk_datetime 2016 2 29 9 15 0 0 /\
  next_day (mk_datetime 2015 2 28 9 15 0 0) = mk_datetime 2015 3 1 9 15 0 0 /\
  next_day (mk_datetime 1999 12 31 0 0 0 0) = mk_datetime 2000 1 1 0 0 0 0.
Proof. repeat split. Qed.

(** ** The session object *)

Lemma seq_index_0 {A} (x : A) (xs : list A) : seq_index (x :: xs) 0 = Return x.
Proof.
  unfold seq_index. cbn [Z.ltb Z.compare]. cbv zeta.
  destruct (Z.ltb_spec 0 (Z.of_nat (length (x :: xs)))) as [_|H];
    [reflexivity | cbn [length] in H; lia].
Qed.

Lemma seq_index_1 {A} (x y : A) (xs : list A) :
  seq_index (x :: y :: xs) 1 = Return y.
Proof.
  unfold seq_index. cbn [Z.ltb Z.compare]. cbv zeta.
  destruct (Z.ltb_spec 1 (Z.of_nat (length (x :: y :: xs)))) as [_|H];
    [reflexivity | cbn [length] in H; lia].
Qed.

(** X9. Given a tuple as [session_token], the constructor yields an object
    only for the empty tuple (all token fields [None], public session) and
    for a pair (both components adopted in order, session bound to them); a
    1-tuple raises [IndexError] at the second subscript and a longer tuple
    raises [ValueError] when the session unpacks it. *)
Theorem init_on_tuple (ck cs : value) (xs : list value) :
  __init__ ck cs (VTuple xs) =
  match xs with
  | [] =>
      Return {| consumer_key := ck; consumer_secret := cs;
                request_token := VNone; request_token_secret := VNone;
                access_token := VNone; access_token_secret := VNone;
                session := PublicSession |}
  | [_] => Raise IndexError
  | [t; s] =>
      Return {| consumer_key := ck; consumer_secret := cs;
                request_token := VNone; request_token_secret := VNone;
                access_token := t; access_token_secret := s;
                session := TokenSession t s |}
  | _ => Raise ValueError
  end.
Proof.
  destruct xs as [|t [|s [|u rest]]]; try reflexivity.
  unfold __init__. cbn [truthy getitem as_int].
  rewrite seq_index_0, seq_index_1. reflexivity.
Qed.

(** Asking for a request token leaves the session alone as well. *)
Lemma get_authorize_url_session (oauth : OAuth1Service) (cb : value)
    (self : Fatsecret) :
  session (snd (get_authorize_url oauth cb self)) = session self.
Proof.
  unfold get_authorize_url, lift, modify, gets, mbind, stateful_bind. cbn.
  destruct (get_request_token oauth cb) as [answer|e]; cbn; [|auto].
  destruct (unpack2 answer) as [[t s]|e]; cbn; [|auto].
  destruct (oauth_authorize_url oauth t); cbn; auto.
Qed.

(** X10. In every state a session object reaches, the signing session
    agrees with the token fields: it is bound to exactly
    [(access_token, access_token_secret)] when the object holds an access
    token and is the public session when it holds none. *)
Theorem session_follows_token (self : Fatsecret) :
  reachable self -> session_coherent self.
Proof.
  induction 1 as [ck cs st self Hres Hinit
                 | oauth cb self Hreach IH
                 | oauth v self Hsvc Hreach IH
                 | self Hreach IH].
  - unfold resumable, __init__ in *.
    destruct (truthy st) eqn:Htr.
    + destruct (is_token_pair_inv _ (Hres eq_refl)) as (t & s & -> & Ht & Hs).
      rewrite getitem_pair_0, getitem_pair_1, get_session_pair in Hinit.
      cbn in Hinit. injection Hinit as <-.
      unfold session_coherent. cbn. rewrite Ht. reflexivity.
    + cbn in Hinit. injection Hinit as <-. reflexivity.
  - destruct (get_authorize_url_access oauth cb self) as [Ht Hs].
    unfold session_coherent in *.
    rewrite get_authorize_url_session, Ht, Hs. exact IH.
  - unfold authenticate, lift, modify, gets, mbind, mret, stateful_bind,
      stateful_ret.
    cbv beta iota.
    destruct (get_access_token oauth _ _ v) as [answer|e] eqn:Hans;
      [|exact IH].
    destruct (is_token_pair_inv _ (Hsvc _ _ _ _ Hans)) as (t & s & -> & Ht & Hs).
    rewrite getitem_pair_0, getitem_pair_1, get_session_pair.
    unfold session_coherent. cbn. rewrite Ht. reflexivity.
  - exact IH.
Qed.

Lemma session_follows_token_witness :
  session_coherent
    (snd (authenticate granting_provider (VStr "8052")
            (snd (get_authorize_url granting_provider (VStr "oob") public_self)))).
Proof.
  apply session_follows_token.
  apply reach_authenticate.
  - intros rt rts verifier answer [= <-]. reflexivity.
  - apply reach_get_authorize_url.
    apply (reach_init (VStr "key") (VStr "secret") VNone).
    + intros H. discriminate H.
    + reflexivity.
Defined.

(** X11. [get_authorize_url] changes the two request-token fields together
    or not at all: afterwards either both are as before (the provider or the
    unpacking raised) or they are the two components of the provider's
    answer, in order; the consumer credentials, the access token and the
    session are never touched. *)
Theorem get_authorize_url_sets_pair (oauth : OAuth1Service) (cb : value)
    (self : Fatsecret) :
  let self' := snd (get_authorize_url oauth cb self) in
  (self' = self \/
   exists answer,
     get_request_token oauth cb = Return answer /\
     unpack2 answer
     = Return (request_token self', request_token_secret self')) /\
  consumer_key self' = consumer_key self /\
  consumer_secret self' = consumer_secret self /\
  access_token self' = access_token self /\
  access_token_secret self' = access_token_secret self /\
  session self' = session self.
Proof.
  unfold get_authorize_url, lift, modify, gets, mbind, stateful_bind. cbn.
  destruct (get_request_token oauth cb) as [answer|e] eqn:Hans; cbn;
    [|repeat split; auto].
  destruct (unpack2 answer) as [[t s]|e] eqn:Hun; cbn; [|repeat split; auto].
  destruct (oauth_authorize_url oauth t); cbn;
    (split; [right; exists answer; split; [reflexivity | exact Hun]
            | repeat split]).
Qed.

(** What the handshake starts with against the granting provider. *)
Example get_authorize_url_granted :
  get_authorize_url granting_provider (VStr "oob") public_self =
  (Return (VStr "http://www.fatsecret.com/oauth/authorize"),
   set_request_tokens (VStr "rtok") (VStr "rsec") public_self).
Proof. reflexivity. Qed.

(** One run of [authenticate], step by step. *)
Lemma authenticate_unfold (oauth : OAuth1Service) (verifier : value)
    (self : Fatsecret) :
  authenticate oauth verifier self =
  match get_access_token oauth (request_token self)
          (request_token_secret self) verifier with
  | Raise e => (Raise e, self)
  | Return answer =>
      match getitem answer (VInt 0) with
      | Raise e => (Raise e, self)
      | Return t =>
          match getitem answer (VInt 1) with
          | Raise e => (Raise e, set_access_token t self)
          | Return s =>
              match get_session answer with
              | Raise e =>
                  (Raise e,
                   set_access_token_secret s (set_access_token t self))
              | Return ss =>
                  (Return answer,
                   set_session ss
                     (set_access_token_secret s (set_access_token t self)))
              end
          end
      end
  end.
Proof.
  unfold authenticate, lift, modify, gets, mbind, mret, stateful_bind,
    stateful_ret.
  cbv beta iota. cbn [request_token request_token_secret].
  destruct (get_access_token oauth _ _ verifier) as [answer|e]; [|reflexivity].
  destruct (getitem answer (VInt 0)) as [t|e]; [|reflexivity].
  destruct (getitem answer (VInt 1)) as [s|e]; [|reflexivity].
  destruct (get_session answer) as [ss|e]; reflexivity.
Qed.

(** X12. [authenticate] hands the stored request token, its secret and the
    verifier to the provider; when that exchange raises, the same exception
    leaves [authenticate] and the object is exactly as before.  In every
    case the consumer credentials and the two request-token fields are as
    before: the request token is not cleared once used. *)
Theorem authenticate_failure_is_clean (oauth : OAuth1Service)
    (verifier : value) (self : Fatsecret) :
  (forall e,
     get_access_token oauth (request_token self) (request_token_secret self)
       verifier = Raise e ->
     authenticate oauth verifier self = (Raise e, self)) /\
  let self' := snd (authenticate oauth verifier self) in
  consumer_key self' = consumer_key self /\
  consumer_secret self' = consumer_secret self /\
  request_token self' = request_token self /\
  request_token_secret self' = request_token_secret self.
Proof.
  rewrite authenticate_unfold. split.
  - intros e ->. reflexivity.
  - destruct (get_access_token oauth _ _ verifier) as [answer|e];
      [|repeat split].
    destruct (getitem answer (VInt 0)) as [t|e]; [|repeat split].
    destruct (getitem answer (VInt 1)) as [s|e]; [|repeat split].
    destruct (get_session answer) as [ss|e]; repeat split.
Qed.

(** An object that can be subscripted at [0] is truthy. *)
Lemma getitem_0_truthy (v t : value) :
  getitem v (VInt 0) = Return t -> truthy v = true.
Proof.
  destruct v as [| | |s|xs|xs|kvs|]; cbn; try discriminate.
  - destruct s; [discriminate | reflexivity].
  - destruct xs; [discriminate | reflexivity].
  - destruct xs; [discriminate | reflexivity].
Qed.

(** X13. What [authenticate] returns can be kept and given back to the
    constructor: whenever [authenticate] returns a token, the constructor
    accepts it (with the same consumer credentials) and builds an object
    with the same access token, access token secret and session. *)
Theorem authenticate_token_resumes (oauth : OAuth1Service) (verifier : value)
    (self self' : Fatsecret) (token : value) :
  authenticate oauth verifier self = (Return token, self') ->
  exists resumed,
    __init__ (consumer_key self') (consumer_secret self') token
    = Return resumed /\
    access_token resumed = access_token self' /\
    access_token_secret resumed = access_token_secret self' /\
    session resumed = session self'.
Proof.
  rewrite authenticate_unfold.
  destruct (get_access_token oauth _ _ verifier) as [answer|e];
    [|discriminate].
  destruct (getitem answer (VInt 0)) as [t|e] eqn:H0; [|discriminate].
  destruct (getitem answer (VInt 1)) as [s|e] eqn:H1; [|discriminate].
  destruct (get_session answer) as [ss|e] eqn:Hss; [|discriminate].
  intros [= <- <-]. unfold __init__.
  rewrite (getitem_0_truthy _ _ H0), H0, H1, Hss. cbn.
  eexists. split; [reflexivity|]. repeat split.
Qed.

Lemma authenticate_token_resumes_witness :
  exists resumed,
    __init__ (VStr "key") (VStr "secret") (VTuple [VStr "atok"; VStr "asec"])
    = Return resumed /\
    access_token resumed = VStr "atok" /\
    access_token_secret resumed = VStr "asec" /\
    session resumed = TokenSession (VStr "atok") (VStr "asec").
Proof.
  apply (authenticate_token_resumes granting_provider (VStr "8052")
           public_self
           (snd (authenticate granting_provider (VStr "8052") public_self))).
  reflexivity.
Defined.

Lemma authenticate_failure_is_clean_witness :
  authenticate refusing_provider (VStr "8052") public_self
  = (Raise (TransportError "503"), public_self).
Proof.
  apply (authenticate_failure_is_clean refusing_provider (VStr "8052")
           public_self).
  reflexivity.
Defined.

(** ** The other endpoint methods *)

(** The tail every endpoint method ends with: one request, recorded after
    those sent before, and the interpreter on what the server answers. *)
Lemma run_request (http : request -> outcome response) (self : Fatsecret)
    (params : gmap string value) (sent : list request) :
  (response ← session_get http self api_url params;
   lift (valid_response response)) sent
  = (http (request_of self params) ≫= valid_response,
     (sent ++ [request_of self params])%list).
Proof.
  unfold mbind at 1. unfold stateful_bind, session_get, lift, request_of.
  destruct (http _); reflexivity.
Qed.

(** X14. [food_delete_favorite] sends exactly one request, whose result it
    passes through the interpreter; the request binds ['serving_id'] and
    ['number_of_units'] to the arguments when both are truthy and binds
    neither when either is absent or falsy. *)
Theorem food_delete_favorite_pairs (http : request -> outcome response)
    (self : Fatsecret) (food_id serving_id number_of_units : value)
    (sent : list request) :
  exists params,
    food_delete_favorite http self food_id serving_id number_of_units sent
    = (http (request_of self params) ≫= valid_response,
       (sent ++ [request_of self params])%list) /\
    params !! "method" = Some (VStr "food.delete_favorite") /\
    params !! "food_id" = Some food_id /\
    if truthy serving_id && truthy number_of_units then
      params !! "serving_id" = Some serving_id /\
      params !! "number_of_units" = Some number_of_units
    else
      params !! "serving_id" = None /\ params !! "number_of_units" = None.
Proof.
  unfold food_delete_favorite. cbv zeta.
  eexists. split; [apply run_request|].
  destruct (truthy serving_id && truthy number_of_units);
    repeat split; by simplify_map_eq.
Qed.

(** X15. [foods_search] sends the two paging parameters together or not at
    all, and only when both are truthy.  So the first page cannot be asked
    for with a page size: with [page_number = 0] the request carries neither
    ['page_number'] nor ['max_results'], whatever [max_results] is. *)
Theorem foods_search_paging (http : request -> outcome response)
    (self : Fatsecret) (search_expression page_number max_results : value)
    (sent : list request) :
  exists params,
    foods_search http self search_expression page_number max_results sent
    = (http (request_of self params) ≫= valid_response,
       (sent ++ [request_of self params])%list) /\
    params !! "search_expression" = Some search_expression /\
    (if truthy page_number && truthy max_results then
       params !! "page_number" = Some page_number /\
       params !! "max_results" = Some max_results
     else
       params !! "page_number" = None /\ params !! "max_results" = None) /\
    (eq_int page_number 0 = true ->
     params !! "page_number" = None /\ params !! "max_results" = None).
Proof.
  unfold foods_search. cbv zeta.
  eexists. split; [apply run_request|].
  assert (Hzero : eq_int page_number 0 = true -> truthy page_number = false).
  { unfold eq_int. destruct page_number as [|[|]|z| | | | |]; cbn;
      try discriminate; try reflexivity.
    intros ->. reflexivity. }
  destruct (truthy page_number) eqn:Hp; cbn [andb].
  - destruct (truthy max_results);
      (split; [by simplify_map_eq|]);
      (split; [split; by simplify_map_eq|]);
      intros H0; apply Hzero in H0; discriminate H0.
  - split; [by simplify_map_eq|].
    split; [split; by simplify_map_eq|].
    intros _. split; by simplify_map_eq.
Qed.

(** X16. [recipes_search] treats the recipe type and the paging pair
    independently: ['recipe_type'] is bound exactly when the argument is
    truthy, the paging pair exactly when both of its arguments are. *)
Theorem recipes_search_optionals (http : request -> outcome response)
    (self : Fatsecret)
    (search_expression recipe_type page_number max_results : value)
    (sent : list request) :
  exists params,
    recipes_search http self search_expression recipe_type page_number
      max_results sent
    = (http (request_of self params) ≫= valid_response,
       (sent ++ [request_of self params])%list) /\
    params !! "search_expression" = Some search_expression /\
    optional params "recipe_type" recipe_type /\
    if truthy page_number && truthy max_results then
      params !! "page_number" = Some page_number /\
      params !! "max_results" = Some max_results
    else
      params !! "page_number" = None /\ params !! "max_results" = None.
Proof.
  unfold recipes_search, optional. cbv zeta.
  eexists. split; [apply run_request|].
  destruct (truthy recipe_type), (truthy page_number && truthy max_results);
    repeat split; by simplify_map_eq.
Qed.

Lemma in_strs_spec (v : value) (ss : list string) :
  in_strs v ss = true <-> exists s, v = VStr s /\ In s ss.
Proof.
  unfold in_strs. rewrite existsb_exists. split.
  - intros (s & Hin & Heq). destruct v; try discriminate Heq.
    cbn in Heq. apply String.eqb_eq in Heq. subst. eauto.
  - intros (s & -> & Hin). exists s. split; [exact Hin|].
    cbn. apply String.eqb_refl.
Qed.

(** X17. [foods_get_most_eaten] and [foods_get_recently_eaten] forward the
    meal only when it is one of the strings "breakfast", "lunch", "dinner",
    "other", compared exactly; any other argument (another string, another
    capitalisation, [None]) is dropped without an error and the request is
    sent without a ['meal'] key. *)
Theorem meal_filter_is_a_whitelist (http : request -> outcome response)
    (self : Fatsecret) (meal : value) (sent : list request) :
  (exists params,
     foods_get_most_eaten http self meal sent
     = (http (request_of self params) ≫= valid_response,
        (sent ++ [request_of self params])%list) /\
     ((exists s, meal = VStr s /\ In s MEALS) -> params !! "meal" = Some meal) /\
     (~ (exists s, meal = VStr s /\ In s MEALS) -> params !! "meal" = None)) /\
  (exists params,
     foods_get_recently_eaten http self meal sent
     = (http (request_of self params) ≫= valid_response,
        (sent ++ [request_of self params])%list) /\
     ((exists s, meal = VStr s /\ In s MEALS) -> params !! "meal" = Some meal) /\
     (~ (exists s, meal = VStr s /\ In s MEALS) -> params !! "meal" = None)).
Proof.
  unfold foods_get_most_eaten, foods_get_recently_eaten. cbv zeta.
  pose proof (in_strs_spec meal MEALS) as Hspec.
  split; (eexists; split; [apply run_request|]);
    destruct (in_strs meal MEALS) eqn:Hin.
  - split; [intros _; by simplify_map_eq|].
    intros Hn. exfalso. apply Hn. apply Hspec. reflexivity.
  - split; [|intros _; by simplify_map_eq].
    intros Hex. apply Hspec in Hex. discriminate Hex.
  - split; [intros _; by simplify_map_eq|].
    intros Hn. exfalso. apply Hn. apply Hspec. reflexivity.
  - split; [|intros _; by simplify_map_eq].
    intros Hex. apply Hspec in Hex. discriminate Hex.
Qed.

Example meal_is_case_sensitive :
  exists rq,
    snd (foods_get_most_eaten acknowledging_server public_self (VStr "Lunch") [])
    = [rq] /\ req_params rq !! "meal" = None.
Proof. eexists. split; [reflexivity|]. cbn [req_params]. by simplify_map_eq. Qed.

Lemma strings_of_strs (names : list string) :
  strings_of (map VStr names) = Return names.
Proof.
  induction names as [|s names IH]; [reflexivity|].
  cbn [map strings_of]. rewrite IH. reflexivity.
Qed.

Lemma strings_of_not_str (xs : list value) (x : value) :
  In x xs -> (forall s, x <> VStr s) -> strings_of xs = Raise TypeError.
Proof.
  induction xs as [|y xs IH]; intros Hin Hx; [contradiction|].
  destruct Hin as [->|Hin].
  - destruct x; try reflexivity. exfalso. exact (Hx _ eq_refl).
  - destruct y; try reflexivity. cbn [strings_of].
    rewrite (IH Hin Hx). reflexivity.
Qed.

(** X18. [saved_meal_create] sends the meal types as one string: a
    non-empty list of strings is joined with commas, in order, under
    ['meals']; an absent or empty list binds no ['meals']; a list holding
    something that is not a string raises [TypeError] before any request is
    sent. *)
Theorem saved_meal_create_joins_meals (http : request -> outcome response)
    (self : Fatsecret) (meal_name meal_desc : value) (sent : list request) :
  (forall names,
     names <> [] ->
     exists params,
       saved_meal_create http self meal_name meal_desc
         (VList (map VStr names)) sent
       = (http (request_of self params) ≫= valid_response,
          (sent ++ [request_of self params])%list) /\
       params !! "meals" = Some (VStr (String.concat "," names)) /\
       params !! "saved_meal_name" = Some meal_name /\
       optional params "saved_meal_description" meal_desc) /\
  (forall meals,
     truthy meals = false ->
     exists params,
       saved_meal_create http self meal_name meal_desc meals sent
       = (http (request_of self params) ≫= valid_response,
          (sent ++ [request_of self params])%list) /\
       params !! "meals" = None) /\
  (forall xs x,
     In x xs -> (forall s, x <> VStr s) ->
     saved_meal_create http self meal_name meal_desc (VList xs) sent
     = (Raise TypeError, sent)).
Proof.
  unfold saved_meal_create, optional. cbv zeta. split; [|split].
  - intros names Hne.
    replace (truthy (VList (map VStr names))) with true
      by (destruct names; [contradiction | reflexivity]).
    unfold str_join. cbn [iter mbind outcome_bind].
    rewrite strings_of_strs. cbn [mbind outcome_bind].
    unfold mbind at 1. unfold stateful_bind at 1. unfold lift at 1.
    cbv beta iota.
    eexists. split; [apply run_request|].
    destruct (truthy meal_desc); repeat split; by simplify_map_eq.
  - intros meals ->.
    unfold mbind at 1. unfold stateful_bind at 1. unfold lift at 1.
    cbv beta iota.
    eexists. split; [apply run_request|].
    destruct (truthy meal_desc); by simplify_map_eq.
  - intros xs x Hin Hx.
    replace (truthy (VList xs)) with true
      by (destruct xs; [contradiction | reflexivity]).
    unfold str_join. cbn [iter mbind outcome_bind].
    rewrite (strings_of_not_str xs x Hin Hx). reflexivity.
Qed.

Lemma saved_meal_create_joins_meals_witness :
  exists params,
    saved_meal_create acknowledging_server public_self (VStr "Brunch") VNone
      (VList (map VStr ["breakfast"; "lunch"])) []
    = (acknowledging_server (request_of public_self params) ≫= valid_response,
       ([] ++ [request_of public_self params])%list) /\
    params !! "meals" = Some (VStr (String.concat "," ["breakfast"; "lunch"])) /\
    params !! "saved_meal_name" = Some (VStr "Brunch") /\
    optional params "saved_meal_description" VNone.
Proof.
  apply (saved_meal_create_joins_meals acknowledging_server public_self
           (VStr "Brunch") VNone []).
  discriminate.
Defined.

Example join_two_meals : String.concat "," ["breakfast"; "lunch"] = "breakfast,lunch".
Proof. reflexivity. Qed.

Lemma meal_filter_is_a_whitelist_witness :
  exists params,
    foods_get_most_eaten acknowledging_server public_self (VStr "lunch") []
    = (acknowledging_server (request_of public_self params) ≫= valid_response,
       ([] ++ [request_of public_self params])%list) /\
    params !! "meal" = Some (VStr "lunch").
Proof.
  destruct (meal_filter_is_a_whitelist acknowledging_server public_self
              (VStr "lunch") []) as [(params & Hrun & Hin & _) _].
  exists params. split; [exact Hrun|].
  apply Hin. exists "lunch". split; [reflexivity | cbn; auto].
Defined.

(** X19. [food_entries_copy] needs both dates: each is converted to its day
    count before anything is sent, and when either conversion raises (the
    date is [None] or not a datetime) that exception leaves the method with
    no request sent.  With two datetimes exactly one request goes out, with
    both day counts and with the meal when it is truthy. *)
Theorem food_entries_copy_dates (http : request -> outcome response)
    (self : Fatsecret) (from_date to_date meal : value) (sent : list request) :
  (forall f t,
     unix_time from_date = Return f -> unix_time to_date = Return t ->
     exists params,
       food_entries_copy http self from_date to_date meal sent
       = (http (request_of self params) ≫= valid_response,
          (sent ++ [request_of self params])%list) /\
       params !! "from_date" = Some (VInt f) /\
       params !! "to_date" = Some (VInt t) /\
       optional params "meal" meal) /\
  (forall e,
     unix_time from_date = Raise e ->
     food_entries_copy http self from_date to_date meal sent = (Raise e, sent)) /\
  (forall f e,
     unix_time from_date = Return f -> unix_time to_date = Raise e ->
     food_entries_copy http self from_date to_date meal sent = (Raise e, sent)).
Proof.
  unfold food_entries_copy, optional. split; [|split].
  - intros f t Hf Ht. rewrite Hf, Ht.
    unfold mbind at 1. unfold stateful_bind at 1. unfold lift at 1.
    cbv beta iota.
    unfold mbind at 1. unfold stateful_bind at 1. unfold lift at 1.
    cbv beta iota zeta.
    eexists. split; [apply run_request|].
    destruct (truthy meal); repeat split; by simplify_map_eq.
  - intros e He. rewrite He. reflexivity.
  - intros f e Hf He. rewrite Hf, He. reflexivity.
Qed.

Lemma food_entries_copy_dates_witness :
  food_entries_copy acknowledging_server public_self
    (VDatetime (mk_datetime 2015 6 1 0 0 0 0)) VNone VNone []
  = (Raise TypeError, []).
Proof.
  apply (food_entries_copy_dates acknowledging_server public_self
           (VDatetime (mk_datetime 2015 6 1 0 0 0 0)) VNone VNone [])
    with (f := 16587); reflexivity.
Defined.

(** X20. [food_entry_create] always sends its five mandatory parameters as
    given, falsy values included.  The date is optional: a falsy date binds
    no ['date'], a datetime binds its day count, and a truthy date that
    cannot be converted raises before any request is sent. *)
Theorem food_entry_create_date (http : request -> outcome response)
    (self : Fatsecret)
    (food_id food_entry_name serving_id number_of_units meal date : value)
    (sent : list request) :
  let run := food_entry_create http self food_id food_entry_name serving_id
               number_of_units meal date sent in
  let mandatory (params : gmap string value) :=
    params !! "food_id" = Some food_id /\
    params !! "food_entry_name" = Some food_entry_name /\
    params !! "serving_id" = Some serving_id /\
    params !! "number_of_units" = Some number_of_units /\
    params !! "meal" = Some meal in
  (truthy date = false ->
     exists params,
       run = (http (request_of self params) ≫= valid_response,
              (sent ++ [request_of self params])%list) /\
       mandatory params /\ params !! "date" = None) /\
  (forall d,
     truthy date = true -> unix_time date = Return d ->
     exists params,
       run = (http (request_of self params) ≫= valid_response,
              (sent ++ [request_of self params])%list) /\
       mandatory params /\ params !! "date" = Some (VInt d)) /\
  (forall e,
     truthy date = true -> unix_time date = Raise e ->
     run = (Raise e, sent)).
Proof.
  unfold food_entry_create, set_date. cbv zeta. split; [|split].
  - intros ->.
    unfold mbind at 1. unfold stateful_bind at 1. unfold lift at 1.
    cbv beta iota.
    eexists. split; [apply run_request|]. repeat split; by simplify_map_eq.
  - intros d -> ->. cbn [mbind outcome_bind].
    unfold mbind at 1. unfold stateful_bind at 1. unfold lift at 1.
    cbv beta iota.
    eexists. split; [apply run_request|]. repeat split; by simplify_map_eq.
  - intros e -> ->. reflexivity.
Qed.

Lemma food_entry_create_date_witness :
  food_entry_create acknowledging_server public_self (VInt 4384)
    (VStr "apple") (VInt 17) (VInt 2) (VStr "lunch") (VInt 16587) []
  = (Raise TypeError, []).
Proof.
  apply (food_entry_create_date acknowledging_server public_self (VInt 4384)
           (VStr "apple") (VInt 17) (VInt 2) (VStr "lunch") (VInt 16587) []);
    reflexivity.
Defined.

(** X21. [food_entry_edit] sends each of its four optional parameters on
    its own: each key is bound to its argument exactly when that argument is
    truthy, whatever the other three are, so a value such as [0] or [""]
    can never be sent. *)
Theorem food_entry_edit_optionals (http : request -> outcome response)
    (self : Fatsecret)
    (food_entry_id entry_name serving_id num_units meal : value)
    (sent : list request) :
  exists params,
    food_entry_edit http self food_entry_id entry_name serving_id num_units
      meal sent
    = (http (request_of self params) ≫= valid_response,
       (sent ++ [request_of self params])%list) /\
    params !! "food_entry_id" = Some food_entry_id /\
    optional params "food_entry_name" entry_name /\
    optional params "serving_id" serving_id /\
    optional params "number_of_units" num_units /\
    optional params "meal" meal.
Proof.
  unfold food_entry_edit, optional. cbv zeta.
  eexists. split; [apply run_request|].
  destruct (truthy entry_name), (truthy serving_id), (truthy num_units),
    (truthy meal); repeat split; by simplify_map_eq.
Qed.

(** X22. When neither guard of [exercise_entry_edit] fails (the date being
    absent or a datetime), exactly one request is sent, and the three
    optional keys follow the guards: ['shift_to_name'] is bound only for
    [shift_to_id = 0] with a name; ['kcals'] only for [shift_to_id = 0]
    without a name, so [kcals] given with any other id, or next to a name,
    is dropped; ['shift_from_name'] only for [shift_from_id = 0]. *)
Theorem exercise_entry_edit_sends (http : request -> outcome response)
    (self : Fatsecret)
    (shift_to_id shift_from_id minutes date shift_to_name shift_from_name
       kcals : value) (sent : list request) :
  (truthy date = true -> exists dt, date = VDatetime dt) ->
  eq_int shift_to_id 0 = false \/ truthy shift_to_name = true \/
    truthy kcals = true ->
  eq_int shift_from_id 0 = false \/ truthy shift_from_name = true ->
  exists params,
    exercise_entry_edit http self shift_to_id shift_from_id minutes date
      shift_to_name shift_from_name kcals sent
    = (http (request_of self params) ≫= valid_response,
       (sent ++ [request_of self params])%list) /\
    params !! "shift_to_name"
    = (if eq_int shift_to_id 0 && truthy shift_to_name
       then Some shift_to_name else None) /\
    params !! "kcals"
    = (if eq_int shift_to_id 0 && negb (truthy shift_to_name)
       then Some kcals else None) /\
    params !! "shift_from_name"
    = (if eq_int shift_from_id 0 then Some shift_from_name else None) /\
    params !! "minutes" = Some minutes.
Proof.
  intros Hdate Hto Hfrom. unfold exercise_entry_edit. cbv zeta.
  assert (Hset : forall p : gmap string value,
            exists p', set_date date p = Return p' /\
                       forall k, k <> "date" -> p' !! k = p !! k).
  { intros p. unfold set_date. destruct (truthy date).
    - destruct (Hdate eq_refl) as [dt ->]. cbn. eexists. split; [reflexivity|].
      intros k Hk. by rewrite lookup_insert_ne.
    - eauto. }
  match goal with
  | |- context [set_date date ?p] =>
      destruct (Hset p) as (params' & -> & Hsame)
  end.
  unfold mbind at 1. unfold stateful_bind at 1. unfold lift at 1.
  cbv beta iota.
  unfold shift_to_guard, shift_from_guard.
  destruct (eq_int shift_to_id 0), (truthy shift_to_name), (truthy kcals),
    (eq_int shift_from_id 0), (truthy shift_from_name);
    cbn [andb negb];
    try (exfalso; clear -Hto Hfrom; intuition discriminate);
    (eexists; split; [apply run_request|]);
    repeat split;
    repeat (rewrite lookup_insert_ne by discriminate);
    try (rewrite lookup_insert_eq; reflexivity);
    rewrite Hsame by discriminate; by simplify_map_eq.
Qed.

Lemma exercise_entry_edit_sends_witness :
  exists params,
    exercise_entry_edit acknowledging_server public_self (VInt 3) (VInt 5)
      (VInt 30) VNone (VStr "unused") VNone (VInt 250) []
    = (acknowledging_server (request_of public_self params) ≫= valid_response,
       ([] ++ [request_of public_self params])%list) /\
    params !! "shift_to_name" = None /\
    params !! "kcals" = None /\
    params !! "shift_from_name" = None /\
    params !! "minutes" = Some (VInt 30).
Proof.
  apply (exercise_entry_edit_sends acknowledging_server public_self (VInt 3)
           (VInt 5) (VInt 30) VNone (VStr "unused") VNone (VInt 250) []).
  - intros H. discriminate H.
  - left. reflexivity.
  - left. reflexivity.
Defined.

(** ** Endpoint methods end to end *)

Lemma profile_tokens (fields : list (string * value)) (t s : value) :
  dict_get fields "auth_token" = Some t ->
  dict_get fields "auth_secret" = Some s ->
  valid_response {| json := Return (VDict [("profile", VDict fields)]) |}
  = Return (VTuple [t; s]).
Proof.
  intros Ht Hs. rewrite valid_response_single. cbn.
  rewrite bool_decide_eq_true_2 by (rewrite Ht; eauto).
  cbn. rewrite Ht. cbn. rewrite Hs. reflexivity.
Qed.

(** X23. The tokens of a profile can open a session: when the server
    answers a [profile.get_auth] call with a profile holding ['auth_token']
    and ['auth_secret'], [profile_get_auth] returns them as a pair, and the
    constructor given that pair builds an object holding both, with its
    session bound to them. *)
Theorem profile_get_auth_resumes (http : request -> outcome response)
    (self : Fatsecret) (user_id : value) (sent : list request)
    (fields : list (string * value)) (t s : value) :
  (forall rq,
     req_params rq !! "method" = Some (VStr "profile.get_auth") ->
     req_params rq !! "user_id" = Some user_id ->
     http rq = Return {| json := Return (VDict [("profile", VDict fields)]) |}) ->
  dict_get fields "auth_token" = Some t ->
  dict_get fields "auth_secret" = Some s ->
  exists token,
    fst (profile_get_auth http self user_id sent) = Return token /\
    length (snd (profile_get_auth http self user_id sent))
    = S (length sent) /\
    forall ck cs,
      exists resumed,
        __init__ ck cs token = Return resumed /\
        access_token resumed = t /\ access_token_secret resumed = s /\
        session resumed = TokenSession t s.
Proof.
  intros Hhttp Ht Hs. unfold profile_get_auth. cbv zeta.
  rewrite run_request. cbn [fst snd].
  rewrite Hhttp by (cbn [request_of req_params]; by simplify_map_eq).
  cbn [mbind outcome_bind]. rewrite (profile_tokens fields t s Ht Hs).
  exists (VTuple [t; s]). split; [reflexivity|]. split.
  - rewrite length_app. cbn. lia.
  - intros ck cs. eexists. split; [reflexivity|]. repeat split.
Qed.

Lemma profile_get_auth_resumes_witness :
  exists token,
    fst (profile_get_auth
           (fun _ => Return {| json := Return (VDict [("profile",
                      VDict [("auth_token", VStr "T");
                             ("auth_secret", VStr "S")])]) |})
           public_self (VStr "user-7") []) = Return token /\
    length (snd (profile_get_auth
           (fun _ => Return {| json := Return (VDict [("profile",
                      VDict [("auth_token", VStr "T");
                             ("auth_secret", VStr "S")])]) |})
           public_self (VStr "user-7") [])) = S (length (@nil request)) /\
    forall ck cs,
      exists resumed,
        __init__ ck cs token = Return resumed /\
        access_token resumed = VStr "T" /\
        access_token_secret resumed = VStr "S" /\
        session resumed = TokenSession (VStr "T") (VStr "S").
Proof.
  apply (profile_get_auth_resumes _ public_self (VStr "user-7") []
           [("auth_token", VStr "T"); ("auth_secret", VStr "S")]).
  - intros rq _ _. reflexivity.
  - reflexivity.
  - reflexivity.
Defined.

(** X24. An error the server reports reaches the caller of an endpoint
    method as the typed exception: when the answer to the request of
    [food_get] is an error envelope with a message and an integer code of a
    band, [food_get] raises the error of that band, carrying the code, and
    the request has been sent all the same. *)
Theorem food_get_raises_server_error (http : request -> outcome response)
    (self : Fatsecret) (food_id : value) (sent : list request)
    (fields : list (string * value)) (c : Z) (m : value) :
  let params : gmap string value :=
    <["format" := VStr "json"]>
      (<["food_id" := food_id]> {["method" := VStr "food.get"]}) in
  http (request_of self params) = Return (error_envelope fields) ->
  dict_get fields "code" = Some (VInt c) ->
  dict_get fields "message" = Some m ->
  banded c ->
  exists e,
    food_get http self food_id sent
    = (Raise e, (sent ++ [request_of self params])%list) /\
    typed_error c e.
Proof.
  intros params Hhttp Hc Hm Hb. unfold food_get. cbv zeta.
  fold params. rewrite run_request, Hhttp. cbn [mbind outcome_bind].
  unfold error_envelope. rewrite valid_response_single.
  destruct (dispatch_error_banded (VDict [("error", VDict fields)])
              fields c m eq_refl Hc Hm Hb) as (e & He & Hty).
  exists e. rewrite He. split; [reflexivity | exact Hty].
Qed.

Lemma food_get_raises_server_error_witness :
  exists e,
    food_get (fun _ => Return (error_envelope
                                 [("code", VInt 106); ("message", VStr "Invalid ID")]))
      public_self (VInt 0) []
    = (Raise e,
       ([] ++ [request_of public_self
                 (<["format" := VStr "json"]>
                    (<["food_id" := VInt 0]>
                       {["method" := VStr "food.get"]}))])%list) /\
    typed_error 106 e.
Proof.
  apply (food_get_raises_server_error _ public_self (VInt 0) []
           [("code", VInt 106); ("message", VStr "Invalid ID")] 106
           (VStr "Invalid ID")).
  - reflexivity.
  - reflexivity.
  - reflexivity.
  - unfold banded, parameter_code. right. right. left. lia.
Defined.

(** X25. [food_entries_get_month] end to end: with a date that is absent or
    a datetime, one request is sent (carrying the day count of the date, or
    no ['date'] at all), and when the server answers it with a month
    envelope the method returns the value under ['day'] of that month. *)
Theorem food_entries_get_month_days (http : request -> outcome response)
    (self : Fatsecret) (date : value) (sent : list request)
    (obj : list (string * value)) (entries : value) :
  (truthy date = true -> exists dt, date = VDatetime dt) ->
  (forall rq,
     req_params rq !! "method" = Some (VStr "food_entries.get_month") ->
     http rq = Return {| json := Return (VDict [("month", VDict obj)]) |}) ->
  dict_get obj "day" = Some entries ->
  exists rq,
    food_entries_get_month http self date sent
    = (Return entries, (sent ++ [rq])%list) /\
    req_params rq !! "date"
    = match date with
      | VDatetime dt => Some (VInt (days (datetime_sub dt epoch)))
      | _ => None
      end.
Proof.
  intros Hdate Hhttp Hday. unfold food_entries_get_month, set_date. cbv zeta.
  assert (Hanswer : valid_response
                      {| json := Return (VDict [("month", VDict obj)]) |}
                    = Return entries).
  { rewrite valid_response_single. cbn. rewrite Hday. reflexivity. }
  destruct (truthy date) eqn:Htr.
  - destruct (Hdate eq_refl) as [dt ->]. cbn [unix_time mbind outcome_bind].
    unfold mbind at 1. unfold stateful_bind at 1. unfold lift at 1.
    cbv beta iota.
    rewrite run_request.
    rewrite Hhttp by (cbn [request_of req_params]; by simplify_map_eq).
    cbn [mbind outcome_bind]. rewrite Hanswer.
    eexists. split; [reflexivity|]. cbn [request_of req_params].
    by simplify_map_eq.
  - unfold mbind at 1. unfold stateful_bind at 1. unfold lift at 1.
    cbv beta iota.
    rewrite run_request.
    rewrite Hhttp by (cbn [request_of req_params]; by simplify_map_eq).
    cbn [mbind outcome_bind]. rewrite Hanswer.
    eexists. split; [reflexivity|]. cbn [request_of req_params].
    destruct date; try discriminate Htr; by simplify_map_eq.
Qed.

Lemma food_entries_get_month_days_witness :
  exists rq,
    food_entries_get_month
      (fun _ => Return {| json := Return (VDict [("month",
                  VDict [("day", VList [VStr "d1"; VStr "d2"])])]) |})
      public_self (VDatetime (mk_datetime 2015 6 1 7 30 0 0)) []
    = (Return (VList [VStr "d1"; VStr "d2"]), ([] ++ [rq])%list) /\
    req_params rq !! "date"
    = Some (VInt (days (datetime_sub (mk_datetime 2015 6 1 7 30 0 0) epoch))).
Proof.
  apply (food_entries_get_month_days _ public_self
           (VDatetime (mk_datetime 2015 6 1 7 30 0 0)) []
           [("day", VList [VStr "d1"; VStr "d2"])]).
  - intros _. eauto.
  - intros rq _. reflexivity.
  - reflexivity.
Defined.

Lemma foods_search_paging_witness :
  exists params,
    foods_search acknowledging_server public_self (VStr "apple") (VInt 0)
      (VInt 50) []
    = (acknowledging_server (request_of public_self params) ≫= valid_response,
       ([] ++ [request_of public_self params])%list) /\
    params !! "page_number" = None /\ params !! "max_results" = None.
Proof.
  destruct (foods_search_paging acknowledging_server public_self
              (VStr "apple") (VInt 0) (VInt 50) [])
    as (params & Hrun & _ & _ & Hzero).
  exists params. split; [exact Hrun|]. apply Hzero. reflexivity.
Defined.

(** ** [unix_time] against the calendar *)

(** A month of the calendar has at least 28 days, and the days before a
    month never exceed what the year has left. *)
Lemma days_in_month_bounds (y m : Z) :
  1 <= m <= 12 -> 28 <= days_in_month y m <= 31.
Proof.
  intros Hm. unfold days_in_month.
  assert (Hcases : m = 1 \/ m = 2 \/ m = 3 \/ m = 4 \/ m = 5 \/ m = 6 \/
                   m = 7 \/ m = 8 \/ m = 9 \/ m = 10 \/ m = 11 \/ m = 12)
    by lia.
  destruct (is_leap y);
    repeat (destruct Hcases as [-> | Hcases]; [vm_compute; split; discriminate|]);
    subst; vm_compute; split; discriminate.
Qed.

Lemma days_before_month_bounds (y m : Z) :
  1 <= m <= 12 ->
  0 <= days_before_month y m /\
  days_before_month y m + days_in_month y m
  <= 365 + (if is_leap y then 1 else 0).
Proof.
  intros Hm. unfold days_before_month, days_in_month.
  assert (Hcases : m = 1 \/ m = 2 \/ m = 3 \/ m = 4 \/ m = 5 \/ m = 6 \/
                   m = 7 \/ m = 8 \/ m = 9 \/ m = 10 \/ m = 11 \/ m = 12)
    by lia.
  destruct (is_leap y);
    repeat (destruct Hcases as [-> | Hcases]; [vm_compute; split; discriminate|]);
    subst; vm_compute; split; discriminate.
Qed.

(** One step of a calendar day keeps the month and the day in range and
    adds one to the ordinal, in any year. *)
Lemma next_day_in_range (dt : datetime) :
  1 <= month dt <= 12 ->
  1 <= day dt <= days_in_month (year dt) (month dt) ->
  1 <= month (next_day dt) <= 12 /\
  1 <= day (next_day dt)
    <= days_in_month (year (next_day dt)) (month (next_day dt)).
Proof.
  intros Hm Hd. unfold next_day.
  destruct (Z.ltb_spec (day dt) (days_in_month (year dt) (month dt))).
  - cbn [year month day]. lia.
  - destruct (Z.ltb_spec (month dt) 12); cbn [year month day].
    + pose proof (days_in_month_bounds (year dt) (month dt + 1)). lia.
    + pose proof (days_in_month_bounds (year dt + 1) 1). lia.
Qed.

Lemma toordinal_step (dt : datetime) :
  1 <= month dt <= 12 ->
  1 <= day dt <= days_in_month (year dt) (month dt) ->
  toordinal (next_day dt) = toordinal dt + 1.
Proof.
  unfold next_day, toordinal, ymd2ord. intros Hm Hd.
  destruct (Z.ltb_spec (day dt) (days_in_month (year dt) (month dt))) as [Hlt|Hge].
  - cbn [year month day]. lia.
  - assert (Hday : day dt = days_in_month (year dt) (month dt)) by lia.
    destruct (Z.ltb_spec (month dt) 12) as [Hm12|Hm12]; cbn [year month day].
    + rewrite days_before_month_succ by lia. lia.
    + assert (Hmonth : month dt = 12) by lia.
      rewrite days_before_year_succ. rewrite Hday, Hmonth.
      change (days_before_month (year dt + 1) 1) with 0.
      change (days_in_month (year dt) 12) with 31.
      replace (days_before_month (year dt) 12)
        with (334 + (if is_leap (year dt) then 1 else 0))
        by (unfold days_before_month; destruct (is_leap (year dt)); reflexivity).
      lia.
Qed.

Lemma days_after_epoch (n : nat) :
  (1 <= month (days_after n epoch) <= 12 /\
   1 <= day (days_after n epoch)
     <= days_in_month (year (days_after n epoch)) (month (days_after n epoch))) /\
  toordinal (days_after n epoch) = toordinal epoch + Z.of_nat n.
Proof.
  induction n as [|n [[Hm Hd] Hord]].
  - split; [|reflexivity]. vm_compute. repeat split; discriminate.
  - cbn [days_after]. split.
    + apply next_day_in_range; assumption.
    + rewrite (toordinal_step _ Hm Hd), Hord. lia.
Qed.

(** C8. For a datetime whose calendar date lies [N] days after 1970-01-01
    (reached from it by [N] steps of one day), with any time of day,
    [unix_time] returns the integer [N]: the time of day is dropped, not
    rounded. *)
Theorem unix_time_counts_days (dt : datetime) (N : nat) :
  valid_time dt ->
  same_date dt (days_after N epoch) ->
  unix_time (VDatetime dt) = Return (Z.of_nat N).
Proof.
  intros Hv (Hy & Hm & Hd). rewrite (unix_time_ordinal dt Hv). f_equal.
  destruct (days_after_epoch N) as [_ Hord].
  unfold toordinal in *. rewrite Hy, Hm, Hd, Hord. lia.
Qed.

Lemma unix_time_counts_days_witness :
  unix_time (VDatetime (mk_datetime 1972 3 1 18 30 0 5)) = Return (Z.of_nat 790).
Proof.
  apply unix_time_counts_days.
  - unfold valid_time. cbn. lia.
  - vm_compute. repeat split.
Defined.

Example days_after_crosses_leap_day :
  days_after 790 epoch = mk_datetime 1972 3 1 0 0 0 0 /\
  days_after 789 epoch = mk_datetime 1972 2 29 0 0 0 0.
Proof. split; vm_compute; reflexivity. Qed.

(** The days before a year and before a month grow with the year and the
    month. *)
Lemma days_before_year_mono (y : Z) (n : nat) :
  days_before_year y + 365 * Z.of_nat n <= days_before_year (y + Z.of_nat n).
Proof.
  induction n as [|n IH].
  - change (Z.of_nat 0) with 0. replace (y + 0) with y by lia. lia.
  - rewrite Nat2Z.inj_succ.
    replace (y + Z.succ (Z.of_nat n)) with (y + Z.of_nat n + 1) by lia.
    rewrite days_before_year_succ.
    destruct (is_leap (y + Z.of_nat n)); lia.
Qed.

Lemma days_before_month_mono (y m : Z) (k : nat) :
  1 <= m -> m + Z.of_nat k <= 12 ->
  days_before_month y m <= days_before_month y (m + Z.of_nat k).
Proof.
  intros Hm. induction k as [|k IH]; intros Hk.
  - change (Z.of_nat 0) with 0. replace (m + 0) with m by lia. lia.
  - rewrite Nat2Z.inj_succ in *.
    replace (m + Z.succ (Z.of_nat k)) with (m + Z.of_nat k + 1) by lia.
    rewrite days_before_month_succ by lia.
    pose proof (days_in_month_bounds y (m + Z.of_nat k)).
    specialize (IH ltac:(lia)). lia.
Qed.

(** The ordinal follows the order of the calendar, strictly. *)
Lemma toordinal_lt (a b : datetime) :
  1 <= month a <= 12 -> 1 <= day a <= days_in_month (year a) (month a) ->
  1 <= month b <= 12 -> 1 <= day b <= days_in_month (year b) (month b) ->
  date_lt a b -> toordinal a < toordinal b.
Proof.
  intros Hma Hda Hmb Hdb Hlt. unfold toordinal, ymd2ord.
  pose proof (days_before_month_bounds (year a) (month a) Hma) as [Ha0 Ha1].
  pose proof (days_before_month_bounds (year b) (month b) Hmb) as [Hb0 Hb1].
  destruct Hlt as [Hy | [Hy [Hm | [Hm Hd]]]].
  - pose proof (days_before_year_mono (year a + 1)
                  (Z.to_nat (year b - (year a + 1)))) as Hmono.
    rewrite Z2Nat.id in Hmono by lia.
    replace (year a + 1 + (year b - (year a + 1))) with (year b) in Hmono
      by lia.
    rewrite days_before_year_succ in Hmono.
    destruct (is_leap (year a)); lia.
  - rewrite <- Hy in *.
    pose proof (days_before_month_mono (year a) (month a + 1)
                  (Z.to_nat (month b - (month a + 1)))) as Hmono.
    rewrite Z2Nat.id in Hmono by lia.
    replace (month a + 1 + (month b - (month a + 1))) with (month b) in Hmono
      by lia.
    rewrite days_before_month_succ in Hmono by lia.
    specialize (Hmono ltac:(lia) ltac:(lia)). lia.
  - rewrite Hy, Hm. lia.
Qed.

(** X7. [unix_time] follows the calendar and the clock: of two datetimes,
    the later one never gets the smaller day count, one on a later date
    gets a strictly larger one, and the count is negative exactly for the
    dates before 1970-01-01 (the days are floored, so the last microsecond
    of 1969 is already day [-1]). *)
Theorem unix_time_monotone (dt1 dt2 : datetime) :
  valid_date dt1 -> valid_time dt1 -> valid_date dt2 -> valid_time dt2 ->
  exists n1 n2,
    unix_time (VDatetime dt1) = Return n1 /\
    unix_time (VDatetime dt2) = Return n2 /\
    (datetime_le dt1 dt2 -> n1 <= n2) /\
    (date_lt dt1 dt2 -> n1 < n2) /\
    (n1 < 0 <-> date_lt dt1 epoch).
Proof.
  intros (_ & Hm1 & Hd1) Hv1 (_ & Hm2 & Hd2) Hv2.
  rewrite (unix_time_ordinal dt1 Hv1), (unix_time_ordinal dt2 Hv2).
  do 2 eexists. split; [reflexivity|]. split; [reflexivity|].
  assert (Hstrict : date_lt dt1 dt2 -> toordinal dt1 < toordinal dt2)
    by (apply toordinal_lt; assumption).
  assert (Hme : 1 <= month epoch <= 12) by (cbn; lia).
  assert (Hde : 1 <= day epoch <= days_in_month (year epoch) (month epoch))
    by (vm_compute; split; discriminate).
  split; [|split; [|split]].
  - intros [Hlt | [(Hy & Hm & Hd) _]].
    + specialize (Hstrict Hlt). lia.
    + unfold toordinal. rewrite Hy, Hm, Hd. lia.
  - intros Hlt. specialize (Hstrict Hlt). lia.
  - intros Hneg.
    assert (Htri : date_lt dt1 epoch \/ same_date dt1 epoch \/ date_lt epoch dt1)
      by (unfold date_lt, same_date; lia).
    destruct Htri as [Hlt | [(Hy & Hm & Hd) | Hgt]]; [exact Hlt | |].
    + unfold toordinal in Hneg. rewrite Hy, Hm, Hd in Hneg. lia.
    + pose proof (toordinal_lt epoch dt1 Hme Hde Hm1 Hd1 Hgt). lia.
  - intros Hlt.
    pose proof (toordinal_lt dt1 epoch Hm1 Hd1 Hme Hde Hlt). lia.
Qed.

Lemma unix_time_monotone_witness :
  exists n1 n2,
    unix_time (VDatetime (mk_datetime 1969 12 31 23 59 59 999999)) = Return n1 /\
    unix_time (VDatetime (mk_datetime 1970 1 1 0 0 0 0)) = Return n2 /\
    (datetime_le (mk_datetime 1969 12 31 23 59 59 999999)
       (mk_datetime 1970 1 1 0 0 0 0) -> n1 <= n2) /\
    (date_lt (mk_datetime 1969 12 31 23 59 59 999999)
       (mk_datetime 1970 1 1 0 0 0 0) -> n1 < n2) /\
    (n1 < 0 <-> date_lt (mk_datetime 1969 12 31 23 59 59 999999) epoch).
Proof.
  apply unix_time_monotone.
  - unfold valid_date. cbn [year month day].
    change (days_in_month 1969 12) with 31. lia.
  - unfold valid_time. cbn. lia.
  - unfold valid_date. cbn [year month day].
    change (days_in_month 1970 1) with 31. lia.
  - unfold valid_time. cbn. lia.
Defined.
